(** * PVC Shrink Ray: the admission webhook of [main.go]

    A shallow embedding of [reviewPVC], [handleMutate] and
    [writeAdmissionReviewResponse], and the properties of the decision
    engine and of the request handler proved about them.

    The program talks to four collaborators: klog, the snapshot client,
    the [http.ResponseWriter] and the request body.  Every call to one of
    them is recorded as an event, in program order; a run of a function is
    its return value together with the events it emitted. *)

From Stdlib Require Import ZArith QArith Lia Strings.Byte.
From stdpp Require Import base strings gmap list pretty.

Local Open Scope Z_scope.
Local Open Scope string_scope.
Local Open Scope list_scope.

(** ** Go values *)

(** A Go [error], identified with the text [err.Error()] returns. *)
Definition error : Type := string.

(** The [(value, err)] pair a fallible Go call returns. *)
Inductive result (A : Type) : Type :=
| Ok (a : A)
| Err (err : error).
Arguments Ok {A} a.
Arguments Err {A} err.

Definition bytes : Type := list byte.

Definition newline : string := String (Ascii.ascii_of_nat 10) EmptyString.
Definition dquote : string := String (Ascii.ascii_of_nat 34) EmptyString.

(** ** The Kubernetes object model, as far as the program reads it *)

Module metav1.

Module GroupVersionKind.
Record t : Type := mk { Group : string; Version : string; Kind : string }.
(** [func (gvk GroupVersionKind) String() string] *)
Definition String (gvk : t) : string :=
  Group gvk +:+ "/" +:+ Version gvk +:+ ", Kind=" +:+ Kind gvk.
End GroupVersionKind.

Module TypeMeta.
Record t : Type := mk { Kind : string; APIVersion : string }.
End TypeMeta.

Module Status.
Record t : Type := mk { Message : string }.
End Status.

Module ObjectMeta.
(** [Labels] is a Go map, [nil] when the object carries none. *)
Record t : Type :=
  mk { Name : string; Namespace : string; Labels : option (gmap string string) }.
End ObjectMeta.

End metav1.

Module corev1.

Module TypedLocalObjectReference.
Record t : Type := mk { APIGroup : option string; Kind : string; Name : string }.
End TypedLocalObjectReference.

Module TypedObjectReference.
Record t : Type :=
  mk { APIGroup : option string; Kind : string; Name : string;
       Namespace : option string }.
End TypedObjectReference.

Module VolumeResourceRequirements.
(** [Requests] is a [ResourceList], a map from resource names to
    quantities; a [nil] map and an empty one answer every lookup alike. *)
Record t (Quantity : Type) : Type := mk { Requests : gmap string Quantity }.
Arguments mk {Quantity} _.
Arguments Requests {Quantity} _.
End VolumeResourceRequirements.

Module PersistentVolumeClaimSpec.
Record t (Quantity : Type) : Type :=
  mk { DataSource : option TypedLocalObjectReference.t;
       DataSourceRef : option TypedObjectReference.t;
       Resources : VolumeResourceRequirements.t Quantity }.
Arguments mk {Quantity} _ _ _.
Arguments DataSource {Quantity} _.
Arguments DataSourceRef {Quantity} _.
Arguments Resources {Quantity} _.
End PersistentVolumeClaimSpec.

Module PersistentVolumeClaim.
Record t (Quantity : Type) : Type :=
  mk { ObjectMeta : metav1.ObjectMeta.t;
       Spec : PersistentVolumeClaimSpec.t Quantity }.
Arguments mk {Quantity} _ _.
Arguments ObjectMeta {Quantity} _.
Arguments Spec {Quantity} _.
(** The fields Go promotes from the embedded [ObjectMeta]. *)
Definition Name {Quantity} (pvc : t Quantity) : string :=
  metav1.ObjectMeta.Name (ObjectMeta pvc).
Definition Namespace {Quantity} (pvc : t Quantity) : string :=
  metav1.ObjectMeta.Namespace (ObjectMeta pvc).
Definition Labels {Quantity} (pvc : t Quantity) : option (gmap string string) :=
  metav1.ObjectMeta.Labels (ObjectMeta pvc).
End PersistentVolumeClaim.

End corev1.

Module snapshotv1.

(** [snapshotv1.GroupName]; main_test.go builds its claims with this
    literal and expects them to resolve. *)
Definition GroupName : string := "snapshot.storage.k8s.io".

Module VolumeSnapshotStatus.
Record t (Quantity : Type) : Type := mk { RestoreSize : option Quantity }.
Arguments mk {Quantity} _.
Arguments RestoreSize {Quantity} _.
End VolumeSnapshotStatus.

Module VolumeSnapshot.
Record t (Quantity : Type) : Type :=
  mk { ObjectMeta : metav1.ObjectMeta.t;
       Status : option (VolumeSnapshotStatus.t Quantity) }.
Arguments mk {Quantity} _ _.
Arguments ObjectMeta {Quantity} _.
Arguments Status {Quantity} _.
End VolumeSnapshot.

End snapshotv1.

Module runtime.
Module RawExtension.
Record t : Type := mk { Raw : bytes }.
End RawExtension.
End runtime.

Module admissionv1.

Inductive PatchType : Type := PatchTypeJSONPatch.

Module AdmissionRequest.
Record t : Type :=
  mk { UID : string;
       Kind : metav1.GroupVersionKind.t;
       Name : string;
       Namespace : string;
       Object : runtime.RawExtension.t }.
End AdmissionRequest.

Module AdmissionResponse.
(** [Patch] is a byte slice, [nil] when no patch is attached. *)
Record t : Type :=
  mk { UID : string;
       Allowed : bool;
       Result : option metav1.Status.t;
       Patch : option bytes;
       PatchType : option PatchType }.
Definition set_UID (uid : string) (r : t) : t :=
  mk uid (Allowed r) (Result r) (Patch r) (PatchType r).
End AdmissionResponse.

Module AdmissionReview.
Record t : Type :=
  mk { TypeMeta : metav1.TypeMeta.t;
       Request : option AdmissionRequest.t;
       Response : option AdmissionResponse.t }.
(** [ar.Response = resp] *)
Definition set_Response (resp : AdmissionResponse.t) (ar : t) : t :=
  mk (TypeMeta ar) (Request ar) (Some resp).
(** [ar.Response.UID = uid], on a review that has a response. *)
Definition set_Response_UID (uid : string) (ar : t) : t :=
  mk (TypeMeta ar) (Request ar) (option_map (AdmissionResponse.set_UID uid) (Response ar)).
End AdmissionReview.

End admissionv1.

Module PVC := corev1.PersistentVolumeClaim.
Module Req := admissionv1.AdmissionRequest.
Module Resp := admissionv1.AdmissionResponse.
Module Review := admissionv1.AdmissionReview.

(** [type patch struct] of main.go; [Value] only ever holds a string. *)
Record patch : Type := mkPatch { Op : string; Path : string; Value : string }.

(** ** Effects *)

Inductive Severity : Type := INFO | WARNING | ERROR.

(** One call to a collaborator.  A klog line carries the line of main.go
    it is emitted from, as klog prints it in the header of the line. *)
Inductive Event : Type :=
| Klog (sev : Severity) (line : nat) (format : string) (args : list string)
| SnapshotGet (namespace name : string)
| HttpError (msg : string) (code : Z)
| HeaderSet (key value : string)
| Write (p : bytes) (err : option error)
| BodyClose.

(** A computation that returns an [A] and emits events. *)
Definition Eff (A : Type) : Type := A * list Event.

Definition ret {A : Type} (a : A) : Eff A := (a, []).

Definition bind {A B : Type} (m : Eff A) (k : A -> Eff B) : Eff B :=
  let (a, t) := m in let (b, t') := k a in (b, t ++ t').

Definition emit (e : Event) : Eff unit := (tt, [e]).

Declare Scope eff_scope.
Delimit Scope eff_scope with eff.
Notation "'let*' x ':=' m 'in' k" := (bind m (fun x => k))
  (at level 10, x name, m at level 100, k at level 200) : eff_scope.
Notation "m '>>' k" := (bind m (fun _ => k))
  (at level 100, k at level 200, right associativity) : eff_scope.
Local Open Scope eff_scope.

Definition value {A : Type} (m : Eff A) : A := fst m.
Definition events {A : Type} (m : Eff A) : list Event := snd m.

Definition klog_Infof (line : nat) (format : string) (args : list string) : Eff unit :=
  emit (Klog INFO line format args).
Definition klog_Warningf (line : nat) (format : string) (args : list string) : Eff unit :=
  emit (Klog WARNING line format args).
Definition klog_Errorf (line : nat) (format : string) (args : list string) : Eff unit :=
  emit (Klog ERROR line format args).

(** ** What the imported packages provide

    [resource.Quantity] with its [Cmp] and [String] methods, the resource
    name [corev1.ResourceStorage], and [encoding/json] at the four types
    the program decodes or encodes.  None of them is code of this
    repository, so the program is embedded over any implementation. *)
Class Imports (Quantity : Type) : Type := {
  (* q.Cmp(y): 0 if equal, -1 if q is less than y, 1 if greater *)
  Quantity_Cmp : Quantity -> Quantity -> Z;
  (* q.String(), the canonical form *)
  Quantity_String : Quantity -> string;
  (* corev1.ResourceStorage *)
  ResourceStorage : string;
  (* json.Unmarshal(raw, &pvc) *)
  json_Unmarshal_PersistentVolumeClaim : bytes -> result (PVC.t Quantity);
  (* json.Unmarshal(body, &admissionReview) *)
  json_Unmarshal_AdmissionReview : bytes -> result Review.t;
  (* json.Marshal(p), p a slice of patches *)
  json_Marshal_patch : list patch -> result bytes;
  (* json.Marshal(review) *)
  json_Marshal_AdmissionReview : Review.t -> result bytes
}.

(** [snapshotclient.Interface], reduced to the one call made on it:
    [client.SnapshotV1().VolumeSnapshots(namespace).Get(ctx, name, opts)]. *)
Definition SnapshotClient (Quantity : Type) : Type :=
  string -> string -> result (snapshotv1.VolumeSnapshot.t Quantity).

Definition Get {Quantity : Type} (client : SnapshotClient Quantity)
    (namespace name : string) : Eff (result (snapshotv1.VolumeSnapshot.t Quantity)) :=
  (client namespace name, [SnapshotGet namespace name]).

(** ** The decision engine *)

(** [&admissionv1.AdmissionResponse{Allowed: true}] *)
Definition allowed : Resp.t := Resp.mk "" true None None None.

(** [&admissionv1.AdmissionResponse{Allowed: true,
      Result: &metav1.Status{Message: err.Error()}}] *)
Definition allowedWithMessage (err : error) : Resp.t :=
  Resp.mk "" true (Some (metav1.Status.mk err)) None None.

Section DecisionEngine.
Context {Quantity : Type} `{!Imports Quantity}.

(** The test of lines 54-55 and 61-62:
    [Kind == "VolumeSnapshot" && APIGroup != nil && *APIGroup == snapshotv1.GroupName]. *)
Definition matchesSnapshot (kind : string) (apiGroup : option string) : bool :=
  bool_decide (kind = "VolumeSnapshot") &&
  match apiGroup with
  | Some g => bool_decide (g = snapshotv1.GroupName)
  | None => false
  end.

(** Lines 52-69 of main.go: the values of [snapshotName] and
    [snapshotNamespace] when line 71 is reached. *)
Definition snapshotRef (pvc : PVC.t Quantity) : string * string :=
  let spec := PVC.Spec pvc in
  let '(snapshotName, snapshotNamespace) :=
    match corev1.PersistentVolumeClaimSpec.DataSource spec with
    | Some ds =>
        if matchesSnapshot (corev1.TypedLocalObjectReference.Kind ds)
                           (corev1.TypedLocalObjectReference.APIGroup ds)
        then (corev1.TypedLocalObjectReference.Name ds, PVC.Namespace pvc)
        else ("", "")
    | None => ("", "")
    end in
  match bool_decide (snapshotName = ""),
        corev1.PersistentVolumeClaimSpec.DataSourceRef spec with
  | true, Some dsr =>
      if matchesSnapshot (corev1.TypedObjectReference.Kind dsr)
                         (corev1.TypedObjectReference.APIGroup dsr)
      then
        (corev1.TypedObjectReference.Name dsr,
         match corev1.TypedObjectReference.Namespace dsr with
         | Some ns => if bool_decide (ns = "") then PVC.Namespace pvc else ns
         | None => PVC.Namespace pvc
         end)
      else (snapshotName, snapshotNamespace)
  | _, _ => (snapshotName, snapshotNamespace)
  end.

(** [pvc.Labels == nil || pvc.Labels[key] != "true"]; a Go map answers a
    missing key with the empty string. *)
Definition lacksTriggerLabel (pvc : PVC.t Quantity) : bool :=
  match PVC.Labels pvc with
  | None => true
  | Some labels =>
      bool_decide (default "" (labels !! "cdi.kubevirt.io/applyStorageProfile") <> "true")
  end.

(** Lines 89-92: [snapshotRestoreSize], [nil] unless the snapshot has a
    status that records a restore size. *)
Definition restoreSizeOf (snapshot : snapshotv1.VolumeSnapshot.t Quantity)
    : option Quantity :=
  match snapshotv1.VolumeSnapshot.Status snapshot with
  | Some st => snapshotv1.VolumeSnapshotStatus.RestoreSize st
  | None => None
  end.

Definition reviewPVC (req : Req.t) (client : SnapshotClient Quantity) : Eff Resp.t :=
  match json_Unmarshal_PersistentVolumeClaim
          (runtime.RawExtension.Raw (Req.Object req)) with
  | Err err =>
      klog_Errorf 34 "Could not unmarshal PVC: %v" [err] >>
      ret (allowedWithMessage err)
  | Ok pvc =>
      let ns := PVC.Namespace pvc in
      let name := PVC.Name pvc in
      klog_Infof 43 "Reviewing PVC: %s/%s (UID: %s)" [ns; name; Req.UID req] >>
      if lacksTriggerLabel pvc then
        klog_Warningf 46 "PVC %s/%s doesn't have cdi.kubevirt.io/applyStorageProfile=true label - This should not happen, skipping" [ns; name] >>
        ret allowed
      else
        let '(snapshotName, snapshotNamespace) := snapshotRef pvc in
        if bool_decide (snapshotName = "") then
          klog_Infof 72 "PVC %s/%s doesn't have a VolumeSnapshot as DataSource, skipping" [ns; name] >>
          ret allowed
        else
          let* got := Get client snapshotNamespace snapshotName in
          match got with
          | Err err =>
              klog_Errorf 80 "Could not get VolumeSnapshot %s/%s: %v"
                [snapshotNamespace; snapshotName; err] >>
              ret (allowedWithMessage err)
          | Ok snapshot =>
              match restoreSizeOf snapshot with
              | None =>
                  klog_Warningf 95 "VolumeSnapshot %s/%s of PVC %s/%s has no RestoreSize, skipping"
                    [snapshotNamespace; snapshotName; ns; name] >>
                  ret allowed
              | Some snapshotRestoreSize =>
                  match corev1.VolumeResourceRequirements.Requests
                          (corev1.PersistentVolumeClaimSpec.Resources (PVC.Spec pvc))
                        !! ResourceStorage with
                  | None =>
                      klog_Warningf 103 "PVC %s/%s has no storage request, skipping" [ns; name] >>
                      ret allowed
                  | Some pvcSize =>
                      if (0 <? Quantity_Cmp pvcSize snapshotRestoreSize)%Z then
                        klog_Infof 110 "Oversized PVC detected %s/%s, charging the shrink ray..." [ns; name] >>
                        let p := [ mkPatch "replace" "/spec/resources/requests/storage"
                                     (Quantity_String snapshotRestoreSize) ] in
                        match json_Marshal_patch p with
                        | Err err =>
                            klog_Errorf 122 "Could not marshal patch: %v" [err] >>
                            ret (allowedWithMessage err)
                        | Ok patchBytes =>
                            klog_Infof 131 "Zapping oversized PVC %s/%s! Reducing size from %s to RestoreSize %s (VolumeSnapshot: %s/%s)"
                              [ns; name; Quantity_String pvcSize;
                               Quantity_String snapshotRestoreSize;
                               snapshotNamespace; snapshotName] >>
                            ret (Resp.mk "" true None (Some patchBytes)
                                   (Some admissionv1.PatchTypeJSONPatch))
                        end
                      else
                        klog_Infof 144 "PVC %s/%s size %s <= RestoreSize %s is already smol, skipping"
                          [ns; name; Quantity_String pvcSize;
                           Quantity_String snapshotRestoreSize] >>
                        ret allowed
                  end
              end
          end
  end.

End DecisionEngine.

(** ** The request handler *)

Module io.
(** An [io.Reader] over a finite stream: it yields [data] and then ends,
    with [io.EOF] when [failure] is [None] and with that error otherwise. *)
Record Reader : Type := mkReader { data : bytes; failure : option error }.

(** [io.LimitReader(r, n)] stops with [io.EOF] after [n] bytes, without
    reading [r] any further. *)
Definition LimitReader (r : Reader) (n : Z) : Reader :=
  if (Z.of_nat (length (data r)) <? n)%Z
  then r
  else mkReader (take (Z.to_nat n) (data r)) None.

(** [io.ReadAll(r)] returns what was read and the error that ended the
    stream, [io.EOF] being reported as no error. *)
Definition ReadAll (r : Reader) : bytes * option error := (data r, failure r).
End io.

Module http.
Definition MethodPost : string := "POST".
Definition StatusOK : Z := 200.
Definition StatusBadRequest : Z := 400.
Definition StatusMethodNotAllowed : Z := 405.
Definition StatusUnsupportedMediaType : Z := 415.

(** An incoming request; header keys are in canonical form, as the
    server stores them. *)
Record Request : Type :=
  mkRequest { Method : string; Header : gmap string (list string); Body : io.Reader }.

(** [h.Get(key)]: the first value of the key, the empty string if none. *)
Definition Header_Get (h : gmap string (list string)) (key : string) : string :=
  match h !! key with
  | Some (v :: _) => v
  | _ => ""
  end.

(** An [http.ResponseWriter], by what its [Write] answers. *)
Record ResponseWriter : Type := mkResponseWriter { WriteResult : bytes -> option error }.

Definition Write_ (w : ResponseWriter) (p : bytes) : Eff (option error) :=
  (WriteResult w p, [Write p (WriteResult w p)]).

(** [http.Error(w, msg, code)] *)
Definition Error (msg : string) (code : Z) : Eff unit := emit (HttpError msg code).
End http.

Definition klog_Error (line : nat) (msg : string) : Eff unit :=
  emit (Klog ERROR line msg []).

(** What the caller of the handler observes of a run. *)
Fixpoint statusCode (t : list Event) : Z :=
  match t with
  | [] => http.StatusOK
  | HttpError _ code :: _ => code
  | Write _ _ :: _ => http.StatusOK
  | _ :: t' => statusCode t'
  end.

Fixpoint replyBody (t : list Event) : bytes :=
  match t with
  | [] => []
  | HttpError msg _ :: t' => String.list_byte_of_string (msg +:+ newline) ++ replyBody t'
  | Write p None :: t' => p ++ replyBody t'
  | _ :: t' => replyBody t'
  end.

(** The snapshot lookups of a run, as (namespace, name), in order. *)
Fixpoint lookups (t : list Event) : list (string * string) :=
  match t with
  | [] => []
  | SnapshotGet ns name :: t' => (ns, name) :: lookups t'
  | _ :: t' => lookups t'
  end.

(** Whether an event comes out of the body of [reviewPVC], lines 30 to 148
    of main.go: one of its klog lines, or its call to the snapshot client. *)
Definition fromReviewPVC (e : Event) : bool :=
  match e with
  | Klog _ line _ _ => (30 <=? line)%nat && (line <=? 148)%nat
  | SnapshotGet _ _ => true
  | _ => false
  end.

Section RequestHandler.
Context {Quantity : Type} `{!Imports Quantity}.

Definition writeAdmissionReviewResponse (w : http.ResponseWriter) (review : Review.t)
    : Eff (option error) :=
  match json_Marshal_AdmissionReview review with
  | Err err =>
      klog_Errorf 213 "Could not marshal response: %v" [err] >>
      ret (Some err)
  | Ok resp =>
      emit (HeaderSet "Content-Type" "application/json") >>
      let* werr := http.Write_ w resp in
      match werr with
      | Some err =>
          klog_Errorf 218 "Could not write response: %v" [err] >>
          ret (Some err)
      | None => ret None
      end
  end.

(** The test of line 191:
    [Kind.Group != "" || Kind.Kind != "PersistentVolumeClaim"]. *)
Definition unsupportedKind (req : Req.t) : bool :=
  bool_decide (metav1.GroupVersionKind.Group (Req.Kind req) <> "") ||
  bool_decide (metav1.GroupVersionKind.Kind (Req.Kind req) <> "PersistentVolumeClaim").

Definition handleMutate (w : http.ResponseWriter) (r : http.Request)
    (client : SnapshotClient Quantity) : Eff unit :=
  (if bool_decide (http.Method r <> http.MethodPost) then
     klog_Errorf 154 "Invalid request method: %s" [http.Method r] >>
     http.Error "invalid request method" http.StatusMethodNotAllowed
   else if bool_decide (http.Header_Get (http.Header r) "Content-Type" <> "application/json") then
     klog_Errorf 160 "Invalid content type: %s" [http.Header_Get (http.Header r) "Content-Type"] >>
     http.Error "invalid content type, expected application/json" http.StatusUnsupportedMediaType
   else
     match io.ReadAll (io.LimitReader (http.Body r) (Z.shiftl 1 20)) with
     | (_, Some err) =>
         klog_Errorf 167 "Could not read request body: %v" [err] >>
         http.Error "could not read request body" http.StatusBadRequest
     | (body, None) =>
         if bool_decide (length body = 0%nat) then
           klog_Error 173 "Empty request body" >>
           http.Error "empty request body" http.StatusBadRequest
         else
           match json_Unmarshal_AdmissionReview body with
           | Err err =>
               klog_Errorf 180 "Failed to unmarshal admission review: %v" [err] >>
               http.Error ("failed to unmarshal admission review: " +:+ err) http.StatusBadRequest
           | Ok admissionReview =>
               match Review.Request admissionReview with
               | None =>
                   klog_Error 186 "Admission review request is missing" >>
                   http.Error "admission review request is missing" http.StatusBadRequest
               | Some request =>
                   if unsupportedKind request then
                     klog_Warningf 192 "Unsupported GVK %s - This should not happen, skipping."
                       [metav1.GroupVersionKind.String (Req.Kind request)] >>
                     let admissionReview := Review.set_Response allowed admissionReview in
                     let* werr := writeAdmissionReviewResponse w admissionReview in
                     match werr with
                     | Some err => klog_Errorf 197 "Could not write response: %v" [err]
                     | None => ret tt
                     end
                   else
                     let* response := reviewPVC request client in
                     let admissionReview := Review.set_Response response admissionReview in
                     let admissionReview :=
                       Review.set_Response_UID (Req.UID request) admissionReview in
                     let* werr := writeAdmissionReviewResponse w admissionReview in
                     match werr with
                     | Some err => klog_Errorf 206 "Could not write response: %v" [err]
                     | None => ret tt
                     end
               end
           end
     end) >>
  emit BodyClose.

End RequestHandler.

(** ** Observations used in the statements *)

(** An event that reaches the client of the HTTP exchange. *)
Definition writesReply (e : Event) : bool :=
  match e with
  | HttpError _ _ | HeaderSet _ _ | Write _ _ => true
  | _ => false
  end.

Definition quiet (t : list Event) : Prop := forallb (fun e => negb (writesReply e)) t = true.

Definition outsideReviewPVC (t : list Event) : Prop :=
  forallb (fun e => negb (fromReviewPVC e)) t = true.

Section Observations.
Context {Quantity : Type} `{!Imports Quantity}.

(** The raw object of the request decodes to the claim [pvc]. *)
Definition requestDecodesTo (req : Req.t) (pvc : PVC.t Quantity) : Prop :=
  json_Unmarshal_PersistentVolumeClaim (runtime.RawExtension.Raw (Req.Object req)) = Ok pvc.

(** The claim carries the trigger label with value exactly "true". *)
Definition hasTriggerLabel (pvc : PVC.t Quantity) : Prop :=
  exists labels,
    PVC.Labels pvc = Some labels
    /\ labels !! "cdi.kubevirt.io/applyStorageProfile" = Some "true".

(** [pvc.Spec.Resources.Requests[corev1.ResourceStorage]] *)
Definition storageRequest (pvc : PVC.t Quantity) : option Quantity :=
  corev1.VolumeResourceRequirements.Requests
    (corev1.PersistentVolumeClaimSpec.Resources (PVC.Spec pvc)) !! ResourceStorage.

(** The primary data source yields no snapshot name: it is absent, or is
    not a snapshot of the snapshot group, or names no object. *)
Definition primaryUnresolved (pvc : PVC.t Quantity) : Prop :=
  match corev1.PersistentVolumeClaimSpec.DataSource (PVC.Spec pvc) with
  | None => True
  | Some ds =>
      corev1.TypedLocalObjectReference.Kind ds <> "VolumeSnapshot"
      \/ corev1.TypedLocalObjectReference.APIGroup ds <> Some snapshotv1.GroupName
      \/ corev1.TypedLocalObjectReference.Name ds = ""
  end.

(** [Cmp] compares the numbers the quantities denote, exactly. *)
Definition exactComparison (num : Quantity -> Q) : Prop :=
  forall a b : Quantity,
    Quantity_Cmp a b = match (num a ?= num b)%Q with Eq => 0 | Lt => -1 | Gt => 1 end.

(** The one correction the engine issues, for the restore size [R]. *)
Definition correction (R : Quantity) : list patch :=
  [ mkPatch "replace" "/spec/resources/requests/storage" (Quantity_String R) ].

(** The run [t] answers the exchange by one call of
    [writeAdmissionReviewResponse] on [review], and by nothing else. *)
Definition sends (w : http.ResponseWriter) (review : Review.t) (t : list Event) : Prop :=
  exists pre post,
    t = pre ++ events (writeAdmissionReviewResponse w review) ++ post
    /\ quiet pre /\ quiet post.

(** The bytes decode to an envelope that carries an inner request. *)
Definition wellFormedEnvelope (body : bytes) : Prop :=
  exists ar request,
    json_Unmarshal_AdmissionReview body = Ok ar /\ Review.Request ar = Some request.

(** The request passes the checks of lines 153-189 of main.go and
    carries the envelope [ar] with inner request [request]. *)
Definition accepted (r : http.Request) (ar : Review.t) (request : Req.t) : Prop :=
  http.Method r = http.MethodPost
  /\ http.Header_Get (http.Header r) "Content-Type" = "application/json"
  /\ exists body,
       io.ReadAll (io.LimitReader (http.Body r) (Z.shiftl 1 20)) = (body, None)
       /\ body <> []
       /\ json_Unmarshal_AdmissionReview body = Ok ar
       /\ Review.Request ar = Some request.
End Observations.

(** ** The fixtures of main_test.go

    Quantities are byte counts; the JSON decoders are tables from
    document names to the objects they stand for. *)
Module Test.

Definition Gi : Z := 2 ^ 30.

Definition apiGroup : string := "snapshot.storage.k8s.io".
Definition triggerLabels : gmap string string :=
  {[ "cdi.kubevirt.io/applyStorageProfile" := "true" ]}.

Definition createPVCFromSnapshot (namespace pvcName snapshotName : string)
    (requestedSize : Z) : PVC.t Z :=
  PVC.mk (metav1.ObjectMeta.mk pvcName namespace (Some triggerLabels))
    (corev1.PersistentVolumeClaimSpec.mk
       (Some (corev1.TypedLocalObjectReference.mk (Some apiGroup) "VolumeSnapshot" snapshotName))
       None
       (corev1.VolumeResourceRequirements.mk {[ "storage" := requestedSize ]})).

Definition createPVCFromSnapshotRef (pvcNamespace pvcName snapshotNamespace snapshotName : string)
    (requestedSize : Z) : PVC.t Z :=
  PVC.mk (metav1.ObjectMeta.mk pvcName pvcNamespace (Some triggerLabels))
    (corev1.PersistentVolumeClaimSpec.mk
       None
       (Some (corev1.TypedObjectReference.mk (Some apiGroup) "VolumeSnapshot" snapshotName
                (Some snapshotNamespace)))
       (corev1.VolumeResourceRequirements.mk {[ "storage" := requestedSize ]})).

Definition createSnapshot (namespace name : string) (restoreSize : Z)
    : snapshotv1.VolumeSnapshot.t Z :=
  snapshotv1.VolumeSnapshot.mk (metav1.ObjectMeta.mk name namespace None)
    (Some (snapshotv1.VolumeSnapshotStatus.mk (Some restoreSize))).

(** A claim without labels, otherwise like [createPVCFromSnapshot]. *)
Definition unlabelled (pvc : PVC.t Z) : PVC.t Z :=
  PVC.mk (metav1.ObjectMeta.mk (PVC.Name pvc) (PVC.Namespace pvc) None) (PVC.Spec pvc).

(** A claim whose data source is another claim, not a snapshot. *)
Definition clonePVC : PVC.t Z :=
  PVC.mk (metav1.ObjectMeta.mk "my-pvc" "test-ns" (Some triggerLabels))
    (corev1.PersistentVolumeClaimSpec.mk
       (Some (corev1.TypedLocalObjectReference.mk None "PersistentVolumeClaim" "other-pvc"))
       None
       (corev1.VolumeResourceRequirements.mk {[ "storage" := 21 * Gi ]})).

(** A claim whose primary data source names no object, while its
    reference variant names a snapshot in another namespace. *)
Definition shadowedPVC : PVC.t Z :=
  PVC.mk (metav1.ObjectMeta.mk "my-pvc" "pvc-ns" (Some triggerLabels))
    (corev1.PersistentVolumeClaimSpec.mk
       (Some (corev1.TypedLocalObjectReference.mk (Some apiGroup) "VolumeSnapshot" ""))
       (Some (corev1.TypedObjectReference.mk (Some apiGroup) "VolumeSnapshot" "my-snapshot"
                (Some "snapshot-ns")))
       (corev1.VolumeResourceRequirements.mk {[ "storage" := 21 * Gi ]})).

Definition claims : gmap string (PVC.t Z) :=
  list_to_map
    [ ("oversized", createPVCFromSnapshot "test-ns" "my-pvc" "my-snapshot" (21 * Gi));
      ("exact", createPVCFromSnapshot "test-ns" "my-pvc" "my-snapshot" (20 * Gi));
      ("by-ref", createPVCFromSnapshotRef "pvc-ns" "my-pvc" "snapshot-ns" "my-snapshot" (21 * Gi));
      ("unlabelled",
       unlabelled (createPVCFromSnapshot "test-ns" "my-pvc" "my-snapshot" (100 * Gi)));
      ("clone", clonePVC);
      ("lost", createPVCFromSnapshot "test-ns" "my-pvc" "no-such-snapshot" (21 * Gi));
      ("shadowed", shadowedPVC) ].

Definition createAdmissionRequest (kind : metav1.GroupVersionKind.t) (document : string)
    : Req.t :=
  Req.mk "test-uid" kind "my-pvc" "test-ns"
    (runtime.RawExtension.mk (String.list_byte_of_string document)).

Definition pvcKind : metav1.GroupVersionKind.t :=
  metav1.GroupVersionKind.mk "" "v1" "PersistentVolumeClaim".
Definition deploymentKind : metav1.GroupVersionKind.t :=
  metav1.GroupVersionKind.mk "apps" "v1" "Deployment".

Definition envelope (request : option Req.t) : Review.t :=
  Review.mk (metav1.TypeMeta.mk "AdmissionReview" "admission.k8s.io/v1") request None.

Definition reviews : gmap string Review.t :=
  list_to_map
    [ ("review-oversized", envelope (Some (createAdmissionRequest pvcKind "oversized")));
      ("review-deployment", envelope (Some (createAdmissionRequest deploymentKind "deployment")));
      ("review-without-request", envelope None) ].

Definition decodeWith {A : Type} (table : gmap string A) (raw : bytes) : result A :=
  match table !! String.string_of_list_byte raw with
  | Some a => Ok a
  | None => Err "invalid character looking for beginning of value"
  end.

Definition showSize (q : Z) : string :=
  if bool_decide (q mod Gi = 0) then pretty (q / Gi) +:+ "Gi" else pretty q.

Definition showPatch (p : patch) : string :=
  "{" +:+ dquote +:+ "op" +:+ dquote +:+ ":" +:+ dquote +:+ Op p +:+ dquote +:+ ","
      +:+ dquote +:+ "path" +:+ dquote +:+ ":" +:+ dquote +:+ Path p +:+ dquote +:+ ","
      +:+ dquote +:+ "value" +:+ dquote +:+ ":" +:+ dquote +:+ Value p +:+ dquote +:+ "}".

Definition encodePatch (ps : list patch) : bytes :=
  String.list_byte_of_string ("[" +:+ String.concat "," (map showPatch ps) +:+ "]").

Definition showResponse (r : Resp.t) : string :=
  "uid=" +:+ Resp.UID r +:+ " allowed=" +:+ (if Resp.Allowed r then "true" else "false")
    +:+ match Resp.Result r with
        | Some st => " message=" +:+ metav1.Status.Message st
        | None => ""
        end
    +:+ match Resp.Patch r with
        | Some p => " patch=" +:+ String.string_of_list_byte p
        | None => ""
        end.

Definition showReview (ar : Review.t) : string :=
  metav1.TypeMeta.Kind (Review.TypeMeta ar) +:+
  match Review.Response ar with
  | Some r => " " +:+ showResponse r
  | None => ""
  end.

Definition compareZ (a b : Z) : Z :=
  match (a ?= b)%Z with Eq => 0 | Lt => -1 | Gt => 1 end.

#[export] Instance imports : Imports Z := {|
  Quantity_Cmp := compareZ;
  Quantity_String := showSize;
  ResourceStorage := "storage";
  json_Unmarshal_PersistentVolumeClaim := decodeWith claims;
  json_Unmarshal_AdmissionReview := decodeWith reviews;
  json_Marshal_patch := fun ps => Ok (encodePatch ps);
  json_Marshal_AdmissionReview := fun ar => Ok (String.list_byte_of_string (showReview ar))
|}.

(** [snapshotfake.NewSimpleClientset(objects...)] *)
Definition NewSimpleClientset (objects : list (snapshotv1.VolumeSnapshot.t Z))
    : SnapshotClient Z :=
  fun namespace name =>
    match
      find (fun o => bool_decide
              (metav1.ObjectMeta.Namespace (snapshotv1.VolumeSnapshot.ObjectMeta o) = namespace
               /\ metav1.ObjectMeta.Name (snapshotv1.VolumeSnapshot.ObjectMeta o) = name))
           objects
    with
    | Some o => Ok o
    | None => Err ("volumesnapshots.snapshot.storage.k8s.io " +:+ name +:+ " not found")
    end.

Definition client : SnapshotClient Z :=
  NewSimpleClientset [ createSnapshot "test-ns" "my-snapshot" (20 * Gi);
                       createSnapshot "snapshot-ns" "my-snapshot" (20 * Gi) ].

(** [httptest.NewRecorder()]: every write succeeds. *)
Definition NewRecorder : http.ResponseWriter := http.mkResponseWriter (fun _ => None).

(** [httptest.NewRequest(method, "/mutate", body)] with a content type. *)
Definition NewRequest (method contentType : string) (body : bytes) : http.Request :=
  http.mkRequest method {[ "Content-Type" := [contentType] ]} (io.mkReader body None).

Definition post (document : string) : http.Request :=
  NewRequest "POST" "application/json" (String.list_byte_of_string document).

(** A body of 2^20 + 1 bytes. *)
Definition longBody : bytes := repeat "x"%byte (Z.to_nat (2 ^ 20 + 1)).

End Test.

(** ** Further observations on runs *)

Definition isErrorLine (e : Event) : bool :=
  match e with
  | Klog ERROR _ _ _ => true
  | _ => false
  end.

(** The run logged at error severity. *)
Definition loggedError (t : list Event) : bool := existsb isErrorLine t.

(** An event that puts a status line or body bytes on the wire. *)
Definition isReply (e : Event) : bool :=
  match e with
  | HttpError _ _ | Write _ _ => true
  | _ => false
  end.

Definition replyCount (t : list Event) : nat := length (List.filter isReply t).

Definition isBodyClose (e : Event) : bool :=
  match e with
  | BodyClose => true
  | _ => false
  end.

Definition closeCount (t : list Event) : nat := length (List.filter isBodyClose t).

(** The envelope [ar] sent back with its request and with [verdict] under
    the UID of the request. *)
Definition answerTo (ar : Review.t) (request : Req.t) (verdict : Resp.t) : Review.t :=
  Review.mk (Review.TypeMeta ar) (Some request)
    (Some (Resp.mk (Req.UID request) (Resp.Allowed verdict) (Resp.Result verdict)
             (Resp.Patch verdict) (Resp.PatchType verdict))).

(** ** Fixtures for the failure paths

    The tables of [Test] with one more claim, one that requests no
    storage; encoders that fail; a snapshot that records no restore size;
    a writer whose connection is gone. *)
Module Faults.

Definition noRequestPVC : PVC.t Z :=
  PVC.mk (metav1.ObjectMeta.mk "my-pvc" "test-ns" (Some Test.triggerLabels))
    (corev1.PersistentVolumeClaimSpec.mk
       (Some (corev1.TypedLocalObjectReference.mk (Some Test.apiGroup) "VolumeSnapshot"
                "my-snapshot"))
       None
       (corev1.VolumeResourceRequirements.mk ∅)).

Definition claims : gmap string (PVC.t Z) := <["no-request" := noRequestPVC]> Test.claims.

Definition imports : Imports Z := {|
  Quantity_Cmp := Test.compareZ;
  Quantity_String := Test.showSize;
  ResourceStorage := "storage";
  json_Unmarshal_PersistentVolumeClaim := Test.decodeWith claims;
  json_Unmarshal_AdmissionReview := Test.decodeWith Test.reviews;
  json_Marshal_patch := fun _ => Err "json: unsupported type";
  json_Marshal_AdmissionReview := fun _ => Err "json: error calling MarshalJSON"
|}.

(** A snapshot that is not ready yet: it has no status. *)
Definition pendingClient : SnapshotClient Z :=
  Test.NewSimpleClientset
    [ snapshotv1.VolumeSnapshot.mk (metav1.ObjectMeta.mk "my-snapshot" "test-ns" None) None ].

(** A client that holds the snapshots of [Test.client] under other
    names as well. *)
Definition crowdedClient : SnapshotClient Z :=
  Test.NewSimpleClientset
    [ Test.createSnapshot "test-ns" "my-snapshot" (20 * Test.Gi);
      Test.createSnapshot "test-ns" "another-snapshot" (1 * Test.Gi);
      Test.createSnapshot "snapshot-ns" "my-snapshot" (20 * Test.Gi) ].

Definition brokenWriter : http.ResponseWriter :=
  http.mkResponseWriter (fun _ => Some "write: broken pipe").


End Faults.

(** ** Runs of the effect monad *)

(** Split a run along every branch the program can take. *)
Ltac all_branches :=
  repeat (first [progress simpl | case_match]); cbv [ret emit] in *; simplify_eq/=.

(** A fixture request, whose body is the named document, passes the
    transport checks of the handler. *)
Ltac accept_fixture document :=
  split; [reflexivity|]; split; [reflexivity|];
  exists (String.list_byte_of_string document);
  split; [reflexivity|]; split; [discriminate|]; split; reflexivity.

Lemma value_bind {A B : Type} (m : Eff A) (k : A -> Eff B) :
  value (bind m k) = value (k (value m)).
Proof. destruct m as [a t]; simpl. destruct (k a); reflexivity. Qed.

Lemma events_bind {A B : Type} (m : Eff A) (k : A -> Eff B) :
  events (bind m k) = events m ++ events (k (value m)).
Proof. destruct m as [a t]; simpl. destruct (k a); reflexivity. Qed.

Lemma lookups_app (t1 t2 : list Event) : lookups (t1 ++ t2) = lookups t1 ++ lookups t2.
Proof.
  induction t1 as [|e t1 IH]; simpl; [reflexivity|].
  destruct e; simpl; rewrite ?IH; reflexivity.
Qed.

Lemma quiet_app (t1 t2 : list Event) : quiet t1 -> quiet t2 -> quiet (t1 ++ t2).
Proof. unfold quiet. rewrite forallb_app. intros -> ->. reflexivity. Qed.

Lemma statusCode_quiet (t1 t2 : list Event) :
  quiet t1 -> statusCode (t1 ++ t2) = statusCode t2.
Proof.
  unfold quiet. induction t1 as [|e t1 IH]; simpl; [reflexivity|].
  destruct e; simpl; intros H; try discriminate; auto.
Qed.

Lemma inside_is_quiet (t : list Event) : forallb fromReviewPVC t = true -> quiet t.
Proof.
  unfold quiet. induction t as [|e t IH]; simpl; [reflexivity|].
  intros [He Ht]%andb_prop. rewrite (IH Ht), andb_true_r.
  destruct e; simpl in *; congruence.
Qed.

Lemma inside_has_no_outside (t : list Event) :
  t <> [] -> forallb fromReviewPVC t = true -> ~ outsideReviewPVC t.
Proof.
  unfold outsideReviewPVC. destruct t as [|e t]; [congruence|]. simpl.
  intros _ [He _]%andb_prop [Hn _]%andb_prop. rewrite He in Hn. discriminate.
Qed.

(** ** The decision engine: general facts *)

Section DecisionEngineFacts.
Context {Quantity : Type} `{!Imports Quantity}.
Implicit Types (req : Req.t) (client : SnapshotClient Quantity) (pvc : PVC.t Quantity).

Lemma hasTriggerLabel_spec pvc : hasTriggerLabel pvc <-> lacksTriggerLabel pvc = false.
Proof.
  unfold hasTriggerLabel, lacksTriggerLabel. split.
  - intros (labels & -> & ->). reflexivity.
  - destruct (PVC.Labels pvc) as [labels|]; [|discriminate].
    intros H%bool_decide_eq_false. exists labels. split; [reflexivity|].
    destruct (labels !! _) as [v|]; simpl in H.
    + f_equal. destruct (decide (v = "true")); [assumption | contradiction].
    + exfalso. apply H. discriminate.
Qed.

Lemma matchesSnapshot_spec (kind : string) (apiGroup : option string) :
  matchesSnapshot kind apiGroup = true
  <-> kind = "VolumeSnapshot" /\ apiGroup = Some snapshotv1.GroupName.
Proof.
  unfold matchesSnapshot. rewrite andb_true_iff, bool_decide_eq_true.
  destruct apiGroup as [g|].
  - rewrite bool_decide_eq_true. split; intros [? ?]; split; congruence.
  - split; intros [? ?]; discriminate.
Qed.

Lemma matchesSnapshot_false (kind : string) (apiGroup : option string) :
  kind <> "VolumeSnapshot" \/ apiGroup <> Some snapshotv1.GroupName ->
  matchesSnapshot kind apiGroup = false.
Proof.
  intros H. destruct (matchesSnapshot kind apiGroup) eqn:E; [|reflexivity].
  apply matchesSnapshot_spec in E. tauto.
Qed.

(** Every run of [reviewPVC] emits at least one event, and each of its
    events is recognised by [fromReviewPVC]. *)
Lemma reviewPVC_events_inside req client :
  events (reviewPVC req client) <> []
  /\ forallb fromReviewPVC (events (reviewPVC req client)) = true.
Proof.
  unfold reviewPVC, Get.
  all_branches; split; (discriminate || reflexivity).
Qed.

Lemma reviewPVC_quiet req client : quiet (events (reviewPVC req client)).
Proof. apply inside_is_quiet, reviewPVC_events_inside. Qed.

(** The engine looks up the reference of lines 52-69, once, and only
    when it carries a name. *)
Lemma reviewPVC_lookups req client pvc :
  requestDecodesTo req pvc ->
  hasTriggerLabel pvc ->
  lookups (events (reviewPVC req client)) =
    if bool_decide (fst (snapshotRef pvc) = "") then []
    else [(snd (snapshotRef pvc), fst (snapshotRef pvc))].
Proof.
  unfold requestDecodesTo. intros Hdec Hlab%hasTriggerLabel_spec.
  unfold reviewPVC, Get. rewrite Hdec, Hlab.
  destruct (snapshotRef pvc) as [name ns]; simpl.
  all_branches; reflexivity.
Qed.

(** ** The decision engine: the size decision *)

(** C1. A decodable, trigger-labelled claim whose snapshot reference
    resolves, whose snapshot is fetched and records restore size [R], and
    which requests storage [S]: when S > R as numbers the verdict is
    allowed and carries the encoding of exactly one instruction,
    replace /spec/resources/requests/storage by the canonical string of R;
    when S <= R, and so when S = R, the verdict is allowed with no patch. *)
Theorem reviewPVC_size_decision (num : Quantity -> Q) req client pvc
    (name ns : string) snapshot status (R S : Quantity) :
  exactComparison num ->
  requestDecodesTo req pvc ->
  hasTriggerLabel pvc ->
  snapshotRef pvc = (name, ns) -> name <> "" ->
  client ns name = Ok snapshot ->
  snapshotv1.VolumeSnapshot.Status snapshot = Some status ->
  snapshotv1.VolumeSnapshotStatus.RestoreSize status = Some R ->
  storageRequest pvc = Some S ->
  ((num R < num S)%Q ->
     forall patchBytes, json_Marshal_patch (correction R) = Ok patchBytes ->
     value (reviewPVC req client)
     = Resp.mk "" true None (Some patchBytes) (Some admissionv1.PatchTypeJSONPatch))
  /\ ((num S <= num R)%Q ->
       value (reviewPVC req client) = Resp.mk "" true None None None)
  /\ ((num S == num R)%Q ->
       value (reviewPVC req client) = Resp.mk "" true None None None).
Proof.
  unfold exactComparison, requestDecodesTo, storageRequest, correction.
  intros Hcmp Hdec Hlab%hasTriggerLabel_spec Href Hname Hget Hst HR HS.
  assert (Hrun : value (reviewPVC req client) =
                 if (0 <? Quantity_Cmp S R)%Z then
                   match json_Marshal_patch (correction R) with
                   | Ok patchBytes =>
                       Resp.mk "" true None (Some patchBytes)
                         (Some admissionv1.PatchTypeJSONPatch)
                   | Err err => allowedWithMessage err
                   end
                 else allowed).
  { unfold reviewPVC, Get, restoreSizeOf, correction.
    rewrite Hdec, Hlab, Href, (bool_decide_eq_false_2 _ Hname). simpl.
    rewrite Hget. simpl. rewrite Hst, HR, HS.
    all_branches; reflexivity. }
  rewrite Hrun, Hcmp. clear Hrun. unfold correction.
  assert (Hle : (num S <= num R)%Q ->
                (if (0 <? match (num S ?= num R)%Q with Eq => 0 | Lt => -1 | Gt => 1 end)%Z
                 then match
                        json_Marshal_patch
                          [mkPatch "replace" "/spec/resources/requests/storage"
                             (Quantity_String R)]
                      with
                      | Ok patchBytes =>
                          Resp.mk "" true None (Some patchBytes)
                            (Some admissionv1.PatchTypeJSONPatch)
                      | Err err => allowedWithMessage err
                      end
                 else allowed) = Resp.mk "" true None None None).
  { intros Hle. destruct (num S ?= num R)%Q eqn:E; simpl; [reflexivity..|].
    exfalso. apply (proj1 (Qle_alt _ _) Hle). exact E. }
  split; [|split].
  - intros Hgt%Qgt_alt patchBytes Hp. rewrite Hgt. simpl. rewrite Hp. reflexivity.
  - exact Hle.
  - intros Heq. apply Hle. rewrite Heq. apply Qle_refl.
Qed.

(** ** The decision engine: the early exits *)

(** C5. A decodable claim without labels, or whose trigger label is not
    exactly "true", is allowed without a patch and without any snapshot
    lookup, whatever its data sources, its size and the snapshots are. *)
Theorem reviewPVC_skips_unlabelled req client pvc :
  requestDecodesTo req pvc ->
  (PVC.Labels pvc = None
   \/ exists labels, PVC.Labels pvc = Some labels
        /\ labels !! "cdi.kubevirt.io/applyStorageProfile" <> Some "true") ->
  value (reviewPVC req client) = Resp.mk "" true None None None
  /\ lookups (events (reviewPVC req client)) = [].
Proof.
  unfold requestDecodesTo. intros Hdec Hlab.
  assert (Hlacks : lacksTriggerLabel pvc = true).
  { destruct (lacksTriggerLabel pvc) eqn:E; [reflexivity|].
    apply hasTriggerLabel_spec in E as (labels & HL & Hv).
    destruct Hlab as [Hnone | (labels' & HL' & Hv')]; congruence. }
  unfold reviewPVC. rewrite Hdec, Hlacks. split; reflexivity.
Qed.

(** C6. When the raw claim does not decode, or the snapshot fetch returns
    an error, the verdict is allowed, carries no patch, and carries the
    text of the error as its message. *)
Theorem reviewPVC_fails_open req client :
  (forall err,
     json_Unmarshal_PersistentVolumeClaim (runtime.RawExtension.Raw (Req.Object req))
     = Err err ->
     value (reviewPVC req client)
     = Resp.mk "" true (Some (metav1.Status.mk err)) None None)
  /\ (forall pvc (name ns : string) err,
        requestDecodesTo req pvc ->
        hasTriggerLabel pvc ->
        snapshotRef pvc = (name, ns) -> name <> "" ->
        client ns name = Err err ->
        value (reviewPVC req client)
        = Resp.mk "" true (Some (metav1.Status.mk err)) None None).
Proof.
  split.
  - intros err Hdec. unfold reviewPVC. rewrite Hdec. reflexivity.
  - unfold requestDecodesTo.
    intros pvc name ns err Hdec Hlab%hasTriggerLabel_spec Href Hname Hget.
    unfold reviewPVC, Get.
    rewrite Hdec, Hlab, Href, (bool_decide_eq_false_2 _ Hname). simpl.
    rewrite Hget. reflexivity.
Qed.

(** C9. A decodable, trigger-labelled claim neither of whose data-source
    fields is a snapshot of the snapshot group (the field is absent, or
    its kind is not "VolumeSnapshot", or its API group is absent or
    different) is allowed without a patch, and the snapshot client is
    never called. *)
Theorem reviewPVC_skips_unresolvable req client pvc :
  requestDecodesTo req pvc ->
  hasTriggerLabel pvc ->
  (forall ds, corev1.PersistentVolumeClaimSpec.DataSource (PVC.Spec pvc) = Some ds ->
     corev1.TypedLocalObjectReference.Kind ds <> "VolumeSnapshot"
     \/ corev1.TypedLocalObjectReference.APIGroup ds <> Some snapshotv1.GroupName) ->
  (forall dsr, corev1.PersistentVolumeClaimSpec.DataSourceRef (PVC.Spec pvc) = Some dsr ->
     corev1.TypedObjectReference.Kind dsr <> "VolumeSnapshot"
     \/ corev1.TypedObjectReference.APIGroup dsr <> Some snapshotv1.GroupName) ->
  value (reviewPVC req client) = Resp.mk "" true None None None
  /\ lookups (events (reviewPVC req client)) = [].
Proof.
  unfold requestDecodesTo. intros Hdec Hlab Hds Hdsr.
  assert (Href : snapshotRef pvc = ("", "")).
  { unfold snapshotRef.
    destruct (corev1.PersistentVolumeClaimSpec.DataSource (PVC.Spec pvc)) as [ds|];
      [rewrite (matchesSnapshot_false _ _ (Hds ds eq_refl))|]; simpl;
      (destruct (corev1.PersistentVolumeClaimSpec.DataSourceRef (PVC.Spec pvc)) as [dsr|];
         [rewrite (matchesSnapshot_false _ _ (Hdsr dsr eq_refl))|]); reflexivity. }
  split.
  - apply hasTriggerLabel_spec in Hlab.
    unfold reviewPVC. rewrite Hdec, Hlab, Href. reflexivity.
  - rewrite (reviewPVC_lookups req client pvc Hdec Hlab), Href. reflexivity.
Qed.

(** ** The decision engine: which snapshot is looked up *)

(** C4, as the code has it.  A primary data source of kind
    "VolumeSnapshot", of the snapshot group and with a non-empty name is
    used, with the namespace of the claim, whatever the reference variant
    is.  When the primary data source yields no name (it is absent, does
    not match, or its name is empty) a matching reference variant is used,
    with its own namespace when that is present and non-empty and with the
    namespace of the claim otherwise.  The engine looks up exactly the
    reference so resolved. *)
Theorem snapshotRef_first_named_match pvc :
  (forall ds,
     corev1.PersistentVolumeClaimSpec.DataSource (PVC.Spec pvc) = Some ds ->
     corev1.TypedLocalObjectReference.Kind ds = "VolumeSnapshot" ->
     corev1.TypedLocalObjectReference.APIGroup ds = Some snapshotv1.GroupName ->
     corev1.TypedLocalObjectReference.Name ds <> "" ->
     snapshotRef pvc = (corev1.TypedLocalObjectReference.Name ds, PVC.Namespace pvc))
  /\ (forall dsr,
        primaryUnresolved pvc ->
        corev1.PersistentVolumeClaimSpec.DataSourceRef (PVC.Spec pvc) = Some dsr ->
        corev1.TypedObjectReference.Kind dsr = "VolumeSnapshot" ->
        corev1.TypedObjectReference.APIGroup dsr = Some snapshotv1.GroupName ->
        fst (snapshotRef pvc) = corev1.TypedObjectReference.Name dsr
        /\ (forall ns, corev1.TypedObjectReference.Namespace dsr = Some ns -> ns <> "" ->
               snd (snapshotRef pvc) = ns)
        /\ (corev1.TypedObjectReference.Namespace dsr = None
             \/ corev1.TypedObjectReference.Namespace dsr = Some "" ->
             snd (snapshotRef pvc) = PVC.Namespace pvc))
  /\ (forall req client,
        requestDecodesTo req pvc ->
        hasTriggerLabel pvc ->
        fst (snapshotRef pvc) <> "" ->
        lookups (events (reviewPVC req client))
        = [(snd (snapshotRef pvc), fst (snapshotRef pvc))]).
Proof.
  split; [|split].
  - intros ds Hds Hkind Hgroup Hname. unfold snapshotRef. rewrite Hds.
    rewrite (proj2 (matchesSnapshot_spec _ _) (conj Hkind Hgroup)).
    rewrite (bool_decide_eq_false_2 _ Hname). reflexivity.
  - intros dsr Hprimary Hdsr Hkind Hgroup.
    assert (Href : snapshotRef pvc =
              (corev1.TypedObjectReference.Name dsr,
               match corev1.TypedObjectReference.Namespace dsr with
               | Some ns => if bool_decide (ns = "") then PVC.Namespace pvc else ns
               | None => PVC.Namespace pvc
               end)).
    { unfold primaryUnresolved in Hprimary. unfold snapshotRef. rewrite Hdsr.
      rewrite (proj2 (matchesSnapshot_spec (corev1.TypedObjectReference.Kind dsr) _)
                 (conj Hkind Hgroup)).
      destruct (corev1.PersistentVolumeClaimSpec.DataSource (PVC.Spec pvc)) as [ds|];
        [|reflexivity].
      destruct (matchesSnapshot _ _) eqn:E; [|reflexivity].
      apply matchesSnapshot_spec in E as [Hk Hg].
      destruct Hprimary as [Hp | [Hp | Hp]]; [contradiction..|].
      rewrite Hp. reflexivity. }
    rewrite Href. simpl. split; [reflexivity|]. split.
    + intros ns -> Hns. rewrite (bool_decide_eq_false_2 _ Hns). reflexivity.
    + intros [-> | ->]; reflexivity.
  - intros req client Hdec Hlab Hname.
    rewrite (reviewPVC_lookups req client pvc Hdec Hlab).
    rewrite (bool_decide_eq_false_2 _ Hname). reflexivity.
Qed.

(** ** The decision engine never denies *)

Lemma reviewPVC_allows req client : Resp.Allowed (value (reviewPVC req client)) = true.
Proof. unfold reviewPVC, Get. all_branches; reflexivity. Qed.

End DecisionEngineFacts.

(** ** The request handler: general facts *)

Section RequestHandlerFacts.
Context {Quantity : Type} `{!Imports Quantity}.
Implicit Types (w : http.ResponseWriter) (r : http.Request)
  (client : SnapshotClient Quantity) (ar : Review.t) (request : Req.t).


Lemma writeAdmissionReviewResponse_status w review (t : list Event) :
  quiet t ->
  statusCode (events (writeAdmissionReviewResponse w review) ++ t) = http.StatusOK.
Proof.
  intros Ht. unfold writeAdmissionReviewResponse, http.Write_.
  destruct (json_Marshal_AdmissionReview review) as [bs|err]; simpl.
  - destruct (http.WriteResult w bs); reflexivity.
  - rewrite <- (app_nil_r t). apply (statusCode_quiet t []), Ht.
Qed.

Lemma writeAdmissionReviewResponse_body w review bs :
  json_Marshal_AdmissionReview review = Ok bs ->
  http.WriteResult w bs = None ->
  events (writeAdmissionReviewResponse w review)
  = [HeaderSet "Content-Type" "application/json"; Write bs None]
  /\ value (writeAdmissionReviewResponse w review) = None.
Proof.
  intros Hm Hw. unfold writeAdmissionReviewResponse, http.Write_.
  rewrite Hm. simpl. rewrite Hw. split; reflexivity.
Qed.


(** The run of the handler on a request that passes the checks of lines
    153-189: the events of the branch taken, the events of writing the
    answer, the line that reports a failed write, and the deferred close
    of the body. *)
Lemma handleMutate_accepted w r client ar request :
  accepted r ar request ->
  let answer :=
    Review.set_Response
      (if unsupportedKind request then allowed
       else Resp.set_UID (Req.UID request) (value (reviewPVC request client))) ar in
  events (handleMutate w r client)
  = (if unsupportedKind request
     then [Klog WARNING 192 "Unsupported GVK %s - This should not happen, skipping."
             [metav1.GroupVersionKind.String (Req.Kind request)]]
     else events (reviewPVC request client))
    ++ events (writeAdmissionReviewResponse w answer)
    ++ match value (writeAdmissionReviewResponse w answer) with
       | Some err =>
           [Klog ERROR (if unsupportedKind request then 197 else 206)%nat
              "Could not write response: %v" [err]]
       | None => []
       end
    ++ [BodyClose].
Proof.
  intros (Hm & Hct & body & Hread & Hbody & Hdec & Hreq). simpl.
  unfold handleMutate.
  rewrite (bool_decide_eq_false_2 (http.Method r <> http.MethodPost)) by tauto.
  rewrite (bool_decide_eq_false_2 (http.Header_Get _ _ <> _)) by tauto.
  rewrite Hread.
  rewrite (bool_decide_eq_false_2 (length body = 0%nat))
    by (destruct body; [congruence | discriminate]).
  rewrite Hdec, Hreq.
  destruct (unsupportedKind request).
  - rewrite !events_bind. simpl. rewrite <- !app_assoc. do 3 f_equal.
    destruct (value (writeAdmissionReviewResponse w _)); reflexivity.
  - rewrite !events_bind. simpl. rewrite ?value_bind. simpl.
    change (Review.set_Response_UID (Req.UID request)
              (Review.set_Response (value (reviewPVC request client)) ar))
      with (Review.set_Response
              (Resp.set_UID (Req.UID request) (value (reviewPVC request client))) ar).
    rewrite <- !app_assoc. do 3 f_equal.
    destruct (value (writeAdmissionReviewResponse w _)); reflexivity.
Qed.

Lemma handleMutate_sends w r client ar request :
  accepted r ar request ->
  sends w
    (Review.set_Response
       (if unsupportedKind request then allowed
        else Resp.set_UID (Req.UID request) (value (reviewPVC request client))) ar)
    (events (handleMutate w r client)).
Proof.
  intros Hacc. rewrite (handleMutate_accepted w r client ar request Hacc).
  eexists _, _. split; [reflexivity|]. split.
  - destruct (unsupportedKind request); [reflexivity | apply reviewPVC_quiet].
  - destruct (value (writeAdmissionReviewResponse w _)); reflexivity.
Qed.

Lemma handleMutate_accepted_status w r client ar request :
  accepted r ar request ->
  statusCode (events (handleMutate w r client)) = http.StatusOK.
Proof.
  intros Hacc. rewrite (handleMutate_accepted w r client ar request Hacc).
  rewrite statusCode_quiet.
  - apply writeAdmissionReviewResponse_status.
    destruct (value (writeAdmissionReviewResponse w _)); reflexivity.
  - destruct (unsupportedKind request); [reflexivity | apply reviewPVC_quiet].
Qed.

(** The supported kind: the identifier of the request is copied onto the
    verdict of [reviewPVC] before the answer is written. *)
Lemma handleMutate_copies_UID w r client ar request :
  accepted r ar request ->
  unsupportedKind request = false ->
  exists resp,
    sends w (Review.set_Response resp ar) (events (handleMutate w r client))
    /\ Resp.UID resp = Req.UID request.
Proof.
  intros Hacc Hk. pose proof (handleMutate_sends w r client ar request Hacc) as Hs.
  rewrite Hk in Hs. eexists. split; [exact Hs | reflexivity].
Qed.

(** The supported kind: the run contains events of [reviewPVC], so their
    absence from a run does tell that [reviewPVC] was not called. *)
Lemma handleMutate_supported_runs_reviewPVC w r client ar request :
  accepted r ar request ->
  unsupportedKind request = false ->
  ~ outsideReviewPVC (events (handleMutate w r client)).
Proof.
  intros Hacc Hk. rewrite (handleMutate_accepted w r client ar request Hacc), Hk.
  destruct (reviewPVC_events_inside request client) as [Hne Hin].
  unfold outsideReviewPVC. rewrite forallb_app.
  intros [H _]%andb_prop. exact (inside_has_no_outside _ Hne Hin H).
Qed.

(** The unsupported kind: the answer is the envelope with the bare allowed
    verdict, and it is the body of the reply when it can be written. *)
Lemma handleMutate_unsupported_answer w r client ar request :
  accepted r ar request ->
  unsupportedKind request = true ->
  sends w (Review.set_Response allowed ar) (events (handleMutate w r client))
  /\ forall bs,
       json_Marshal_AdmissionReview (Review.set_Response allowed ar) = Ok bs ->
       http.WriteResult w bs = None ->
       replyBody (events (handleMutate w r client)) = bs.
Proof.
  intros Hacc Hk. split.
  - pose proof (handleMutate_sends w r client ar request Hacc) as Hs.
    rewrite Hk in Hs. exact Hs.
  - intros bs Hm Hw. rewrite (handleMutate_accepted w r client ar request Hacc), Hk.
    destruct (writeAdmissionReviewResponse_body w _ bs Hm Hw) as [-> ->].
    simpl. rewrite app_nil_r. reflexivity.
Qed.

(** The handler depends on the request through its method, its headers
    and what the limited read of its body returns. *)
Lemma handleMutate_reads_body w r r' client :
  http.Method r = http.Method r' ->
  http.Header r = http.Header r' ->
  io.ReadAll (io.LimitReader (http.Body r) (Z.shiftl 1 20))
  = io.ReadAll (io.LimitReader (http.Body r') (Z.shiftl 1 20)) ->
  handleMutate w r client = handleMutate w r' client.
Proof. intros Hm Hh Hb. unfold handleMutate. rewrite Hm, Hh, Hb. reflexivity. Qed.

(** A request with the right method and content type whose body cannot be
    read, is empty, does not decode, or carries no inner request. *)
Lemma handleMutate_bad_body w r client (body : bytes) (failure : option error) :
  http.Method r = "POST" ->
  http.Header_Get (http.Header r) "Content-Type" = "application/json" ->
  io.ReadAll (io.LimitReader (http.Body r) (Z.shiftl 1 20)) = (body, failure) ->
  (failure <> None
   \/ body = []
   \/ (exists err, json_Unmarshal_AdmissionReview body = Err err)
   \/ (exists ar, json_Unmarshal_AdmissionReview body = Ok ar
                  /\ Review.Request ar = None)) ->
  statusCode (events (handleMutate w r client)) = 400
  /\ outsideReviewPVC (events (handleMutate w r client)).
Proof.
  intros Hm Hct Hread Hbad. unfold handleMutate.
  rewrite (bool_decide_eq_false_2 (http.Method r <> http.MethodPost))
    by (intros H; apply H, Hm).
  rewrite (bool_decide_eq_false_2 (http.Header_Get _ _ <> _))
    by (intros H; apply H, Hct).
  rewrite Hread.
  destruct failure as [err|]; [split; reflexivity|].
  destruct body as [|b body]; [split; reflexivity|].
  rewrite (bool_decide_eq_false_2 (length (b :: body) = 0%nat)) by discriminate.
  destruct Hbad as [H | [H | [[err H] | (ar & H & Hreq)]]];
    [congruence | discriminate | |]; rewrite H; [|rewrite Hreq]; split; reflexivity.
Qed.

(** ** The request handler: verdicts *)

(** C2. Every run of [reviewPVC] returns an allowed verdict; and every
    request the handler accepts is answered with an envelope whose verdict
    is allowed, which on the unsupported-kind path is the bare allowed
    verdict. *)
Theorem never_denies w r client :
  (forall req, Resp.Allowed (value (reviewPVC req client)) = true)
  /\ (forall ar request,
        accepted r ar request ->
        exists resp,
          Resp.Allowed resp = true
          /\ sends w (Review.set_Response resp ar) (events (handleMutate w r client))
          /\ (unsupportedKind request = true -> resp = Resp.mk "" true None None None)).
Proof.
  split; [intros req; apply reviewPVC_allows|].
  intros ar request Hacc.
  pose proof (handleMutate_sends w r client ar request Hacc) as Hs.
  eexists. split; [|split; [exact Hs|]].
  - destruct (unsupportedKind request); [reflexivity|]. simpl. apply reviewPVC_allows.
  - intros ->. reflexivity.
Qed.

(** C3, on the branch where the code departs from it.  An accepted request
    of an unsupported kind is answered with the envelope whose verdict is
    the bare allowed one: its UID is the empty string, whatever the UID of
    the request is. *)
Theorem handleMutate_unsupported_kind_drops_UID w r client ar request :
  accepted r ar request ->
  unsupportedKind request = true ->
  sends w (Review.set_Response (Resp.mk "" true None None None) ar)
    (events (handleMutate w r client))
  /\ (Req.UID request <> "" ->
       Resp.UID (Resp.mk "" true None None None) <> Req.UID request)
  /\ forall bs,
       json_Marshal_AdmissionReview
         (Review.set_Response (Resp.mk "" true None None None) ar) = Ok bs ->
       http.WriteResult w bs = None ->
       replyBody (events (handleMutate w r client)) = bs.
Proof.
  intros Hacc Hk.
  destruct (handleMutate_unsupported_answer w r client ar request Hacc Hk) as [Hs Hb].
  split; [exact Hs|]. split; [|exact Hb].
  simpl. congruence.
Qed.


(** ** The request handler: transport checks *)

(** C7. The checks run in order and each one ends the exchange: a method
    other than POST gives 405; otherwise a content type other than
    application/json gives 415; otherwise a body that cannot be read, is
    empty, does not decode, or decodes to an envelope without a request
    gives 400.  In none of these runs does an event of [reviewPVC] occur. *)
Theorem handleMutate_rejects_before_review w r client :
  (http.Method r <> "POST" ->
     statusCode (events (handleMutate w r client)) = 405
     /\ outsideReviewPVC (events (handleMutate w r client)))
  /\ (http.Method r = "POST" ->
      http.Header_Get (http.Header r) "Content-Type" <> "application/json" ->
      statusCode (events (handleMutate w r client)) = 415
      /\ outsideReviewPVC (events (handleMutate w r client)))
  /\ (http.Method r = "POST" ->
      http.Header_Get (http.Header r) "Content-Type" = "application/json" ->
      forall body failure,
        io.ReadAll (io.LimitReader (http.Body r) (Z.shiftl 1 20)) = (body, failure) ->
        (failure <> None
         \/ body = []
         \/ (exists err, json_Unmarshal_AdmissionReview body = Err err)
         \/ (exists ar, json_Unmarshal_AdmissionReview body = Ok ar
                        /\ Review.Request ar = None)) ->
        statusCode (events (handleMutate w r client)) = 400
        /\ outsideReviewPVC (events (handleMutate w r client))).
Proof.
  split; [|split].
  - intros Hm. unfold handleMutate.
    rewrite (bool_decide_eq_true_2 (http.Method r <> http.MethodPost)) by exact Hm.
    split; reflexivity.
  - intros Hm Hct. unfold handleMutate.
    rewrite (bool_decide_eq_false_2 (http.Method r <> http.MethodPost))
      by (intros H; apply H, Hm).
    rewrite (bool_decide_eq_true_2 (http.Header_Get _ _ <> _)) by exact Hct.
    split; reflexivity.
  - intros Hm Hct body failure. apply handleMutate_bad_body; assumption.
Qed.

(** C10. A body longer than 2^20 bytes is not refused: the handler reads
    its first 2^20 bytes without error and behaves exactly as on the
    request whose body is that prefix.  The status is 200 when the prefix
    is a well-formed envelope and 400 when it is not. *)
Theorem handleMutate_truncates_long_bodies w r client :
  http.Method r = "POST" ->
  http.Header_Get (http.Header r) "Content-Type" = "application/json" ->
  (2 ^ 20 < Z.of_nat (length (io.data (http.Body r))))%Z ->
  io.ReadAll (io.LimitReader (http.Body r) (Z.shiftl 1 20))
  = (take (Z.to_nat (2 ^ 20)) (io.data (http.Body r)), None)
  /\ Z.of_nat (length (take (Z.to_nat (2 ^ 20)) (io.data (http.Body r)))) = (2 ^ 20)%Z
  /\ handleMutate w r client
     = handleMutate w
         (http.mkRequest (http.Method r) (http.Header r)
            (io.mkReader (take (Z.to_nat (2 ^ 20)) (io.data (http.Body r))) None))
         client
  /\ (wellFormedEnvelope (take (Z.to_nat (2 ^ 20)) (io.data (http.Body r))) ->
      statusCode (events (handleMutate w r client)) = 200)
  /\ (~ wellFormedEnvelope (take (Z.to_nat (2 ^ 20)) (io.data (http.Body r))) ->
      statusCode (events (handleMutate w r client)) = 400).
Proof.
  intros Hm Hct Hlen.
  change (Z.shiftl 1 20) with (2 ^ 20)%Z.
  set (limit := (2 ^ 20)%Z) in *.
  assert (Hpos : (0 < limit)%Z) by reflexivity.
  set (prefix := take (Z.to_nat limit) (io.data (http.Body r))).
  assert (Hplen : Z.of_nat (length prefix) = limit).
  { unfold prefix. rewrite length_take. lia. }
  assert (Hread : io.ReadAll (io.LimitReader (http.Body r) limit) = (prefix, None)).
  { unfold io.LimitReader. rewrite (proj2 (Z.ltb_ge _ _)) by lia. reflexivity. }
  assert (Hread' : io.ReadAll (io.LimitReader (io.mkReader prefix None) limit)
                   = (prefix, None)).
  { unfold io.LimitReader. simpl. rewrite (proj2 (Z.ltb_ge _ _)) by lia. simpl.
    unfold prefix. rewrite take_take, Nat.min_id. reflexivity. }
  assert (Hne : prefix <> []).
  { intros E. rewrite E in Hplen. simpl in Hplen. lia. }
  split; [exact Hread|]. split; [exact Hplen|]. split; [|split].
  - apply handleMutate_reads_body; [reflexivity..|].
    change (Z.shiftl 1 20) with limit. simpl. rewrite Hread, Hread'. reflexivity.
  - intros (ar & request & Hdec & Hreq).
    apply (handleMutate_accepted_status w r client ar request).
    split; [exact Hm|]. split; [exact Hct|]. exists prefix. auto.
  - intros Hill.
    apply (handleMutate_bad_body w r client prefix None Hm Hct Hread).
    right; right.
    destruct (json_Unmarshal_AdmissionReview prefix) as [ar|err] eqn:Hdec;
      [|left; eauto].
    right. exists ar. split; [reflexivity|].
    destruct (Review.Request ar) as [request|] eqn:Hreq; [|reflexivity].
    exfalso. apply Hill. exists ar, request. auto.
Qed.

End RequestHandlerFacts.

(** ** The theorems on the fixtures of main_test.go *)

Section OnTheFixtures.
Import Test.

Lemma compareZ_exact : exactComparison (Quantity := Z) inject_Z.
Proof.
  intros a b. unfold Qcompare. simpl. rewrite !Z.mul_1_r. reflexivity.
Qed.

(** TestOversizedPVCGetsShrunk_DataSource and
    TestCorrectlySizedPVCIsUntouched: 21Gi against a restore size of 20Gi
    is patched to "20Gi", 20Gi against 20Gi is left alone. *)
Lemma reviewPVC_size_decision_witness :
  value (reviewPVC (createAdmissionRequest pvcKind "oversized") client)
  = Resp.mk "" true None
      (Some (encodePatch [mkPatch "replace" "/spec/resources/requests/storage" "20Gi"]))
      (Some admissionv1.PatchTypeJSONPatch)
  /\ value (reviewPVC (createAdmissionRequest pvcKind "exact") client)
     = Resp.mk "" true None None None.
Proof.
  split.
  - apply (proj1 (reviewPVC_size_decision inject_Z
             (createAdmissionRequest pvcKind "oversized") client
             (createPVCFromSnapshot "test-ns" "my-pvc" "my-snapshot" (21 * Gi))
             "my-snapshot" "test-ns"
             (createSnapshot "test-ns" "my-snapshot" (20 * Gi))
             (snapshotv1.VolumeSnapshotStatus.mk (Some (20 * Gi)))
             (20 * Gi) (21 * Gi)
             compareZ_exact eq_refl
             (ex_intro _ triggerLabels (conj eq_refl eq_refl))
             eq_refl ltac:(discriminate) eq_refl eq_refl eq_refl eq_refl)).
    + reflexivity.
    + reflexivity.
  - apply (proj2 (proj2 (reviewPVC_size_decision inject_Z
             (createAdmissionRequest pvcKind "exact") client
             (createPVCFromSnapshot "test-ns" "my-pvc" "my-snapshot" (20 * Gi))
             "my-snapshot" "test-ns"
             (createSnapshot "test-ns" "my-snapshot" (20 * Gi))
             (snapshotv1.VolumeSnapshotStatus.mk (Some (20 * Gi)))
             (20 * Gi) (20 * Gi)
             compareZ_exact eq_refl
             (ex_intro _ triggerLabels (conj eq_refl eq_refl))
             eq_refl ltac:(discriminate) eq_refl eq_refl eq_refl eq_refl))).
    reflexivity.
Defined.

(** TestHTTPEndpoint: the answer to the oversized claim is allowed. *)
Lemma never_denies_witness :
  exists resp,
    Resp.Allowed resp = true
    /\ sends NewRecorder
         (Review.set_Response resp
            (envelope (Some (createAdmissionRequest pvcKind "oversized"))))
         (events (handleMutate NewRecorder (post "review-oversized") client))
    /\ (unsupportedKind (createAdmissionRequest pvcKind "oversized") = true ->
        resp = Resp.mk "" true None None None).
Proof.
  apply (proj2 (never_denies NewRecorder (post "review-oversized") client)).
  accept_fixture "review-oversized".
Defined.

(** A review of a Deployment, sent with UID "test-uid", is answered with
    an empty UID. *)
Lemma handleMutate_unsupported_kind_drops_UID_witness :
  Req.UID (createAdmissionRequest deploymentKind "deployment") = "test-uid"
  /\ replyBody (events (handleMutate NewRecorder (post "review-deployment") client))
     = String.list_byte_of_string "AdmissionReview uid= allowed=true".
Proof.
  split; [reflexivity|].
  apply (proj2 (proj2 (handleMutate_unsupported_kind_drops_UID
           NewRecorder (post "review-deployment") client
           (envelope (Some (createAdmissionRequest deploymentKind "deployment")))
           (createAdmissionRequest deploymentKind "deployment")
           ltac:(accept_fixture "review-deployment") eq_refl)));
    reflexivity.
Defined.

(** TestOversizedPVCGetsShrunk_DataSource and _DataSourceRef: the primary
    data source resolves in the namespace of the claim, the reference
    variant in the namespace it names. *)
Lemma snapshotRef_first_named_match_witness :
  snapshotRef (createPVCFromSnapshot "test-ns" "my-pvc" "my-snapshot" (21 * Gi))
  = ("my-snapshot", "test-ns")
  /\ snd (snapshotRef
            (createPVCFromSnapshotRef "pvc-ns" "my-pvc" "snapshot-ns" "my-snapshot" (21 * Gi)))
     = "snapshot-ns".
Proof.
  split.
  - apply (proj1 (snapshotRef_first_named_match
             (createPVCFromSnapshot "test-ns" "my-pvc" "my-snapshot" (21 * Gi)))
             (corev1.TypedLocalObjectReference.mk (Some apiGroup) "VolumeSnapshot" "my-snapshot"));
      [reflexivity | reflexivity | reflexivity | discriminate].
  - apply (proj1 (proj2 (proj1 (proj2 (snapshotRef_first_named_match
             (createPVCFromSnapshotRef "pvc-ns" "my-pvc" "snapshot-ns" "my-snapshot" (21 * Gi))))
             (corev1.TypedObjectReference.mk (Some apiGroup) "VolumeSnapshot" "my-snapshot"
                (Some "snapshot-ns"))
             I eq_refl eq_refl eq_refl)) "snapshot-ns");
      [reflexivity | discriminate].
Defined.

(** C4, as stated, fails on the code.  The primary data source of this
    claim is a snapshot of the snapshot group, with an empty name; its
    reference variant names my-snapshot in snapshot-ns.  The code resolves
    to the reference variant and looks that snapshot up, where the claim
    has the name of the primary data source used, in the namespace of the
    claim. *)
Lemma shadowed_primary_is_not_used :
  corev1.PersistentVolumeClaimSpec.DataSource (PVC.Spec shadowedPVC)
  = Some (corev1.TypedLocalObjectReference.mk (Some snapshotv1.GroupName) "VolumeSnapshot" "")
  /\ snapshotRef shadowedPVC <> ("", PVC.Namespace shadowedPVC)
  /\ snapshotRef shadowedPVC = ("my-snapshot", "snapshot-ns")
  /\ lookups (events (reviewPVC (createAdmissionRequest pvcKind "shadowed") client))
     = [("snapshot-ns", "my-snapshot")].
Proof.
  split; [reflexivity|]. split; [discriminate|]. split; reflexivity.
Qed.

(** A claim of 100Gi without labels is left alone and nothing is looked up. *)
Lemma reviewPVC_skips_unlabelled_witness :
  value (reviewPVC (createAdmissionRequest pvcKind "unlabelled") client)
  = Resp.mk "" true None None None
  /\ lookups (events (reviewPVC (createAdmissionRequest pvcKind "unlabelled") client)) = [].
Proof.
  apply (reviewPVC_skips_unlabelled
           (createAdmissionRequest pvcKind "unlabelled") client
           (unlabelled (createPVCFromSnapshot "test-ns" "my-pvc" "my-snapshot" (100 * Gi)))).
  - reflexivity.
  - left. reflexivity.
Defined.

(** A raw object that does not decode, and a claim whose snapshot does not
    exist: both are allowed, with the error as the message. *)
Lemma reviewPVC_fails_open_witness :
  value (reviewPVC (createAdmissionRequest pvcKind "garbage") client)
  = Resp.mk "" true
      (Some (metav1.Status.mk "invalid character looking for beginning of value"))
      None None
  /\ value (reviewPVC (createAdmissionRequest pvcKind "lost") client)
     = Resp.mk "" true
         (Some (metav1.Status.mk
                  "volumesnapshots.snapshot.storage.k8s.io no-such-snapshot not found"))
         None None.
Proof.
  split.
  - apply (proj1 (reviewPVC_fails_open (createAdmissionRequest pvcKind "garbage") client)).
    reflexivity.
  - apply (proj2 (reviewPVC_fails_open (createAdmissionRequest pvcKind "lost") client)
             (createPVCFromSnapshot "test-ns" "my-pvc" "no-such-snapshot" (21 * Gi))
             "no-such-snapshot" "test-ns").
    + reflexivity.
    + exists triggerLabels. split; reflexivity.
    + reflexivity.
    + discriminate.
    + reflexivity.
Defined.

(** A GET, a POST of text/plain, and a POST of an envelope without a
    request: 405, 415 and 400. *)
Lemma handleMutate_rejects_before_review_witness :
  statusCode (events (handleMutate NewRecorder
                        (NewRequest "GET" "application/json" []) client)) = 405
  /\ statusCode (events (handleMutate NewRecorder
                           (NewRequest "POST" "text/plain" []) client)) = 415
  /\ statusCode (events (handleMutate NewRecorder
                           (post "review-without-request") client)) = 400
  /\ outsideReviewPVC (events (handleMutate NewRecorder
                                 (post "review-without-request") client)).
Proof.
  split; [|split].
  - apply (proj1 (handleMutate_rejects_before_review NewRecorder
                    (NewRequest "GET" "application/json" []) client)).
    discriminate.
  - apply (proj1 (proj2 (handleMutate_rejects_before_review NewRecorder
                           (NewRequest "POST" "text/plain" []) client)));
      [reflexivity | discriminate].
  - apply (proj2 (proj2 (handleMutate_rejects_before_review NewRecorder
                           (post "review-without-request") client))
             eq_refl eq_refl
             (String.list_byte_of_string "review-without-request") None eq_refl).
    right; right; right. exists (envelope None). split; reflexivity.
Defined.


(** A claim cloned from another claim is left alone and nothing is looked up. *)
Lemma reviewPVC_skips_unresolvable_witness :
  value (reviewPVC (createAdmissionRequest pvcKind "clone") client)
  = Resp.mk "" true None None None
  /\ lookups (events (reviewPVC (createAdmissionRequest pvcKind "clone") client)) = [].
Proof.
  apply (reviewPVC_skips_unresolvable (createAdmissionRequest pvcKind "clone") client clonePVC).
  - reflexivity.
  - exists triggerLabels. split; reflexivity.
  - intros ds [= <-]. left. discriminate.
  - intros dsr [=].
Defined.

(** A body of 2^20 + 1 bytes is handled as its first 2^20 bytes. *)
Lemma handleMutate_truncates_long_bodies_witness :
  handleMutate NewRecorder (NewRequest "POST" "application/json" longBody) client
  = handleMutate NewRecorder
      (NewRequest "POST" "application/json" (take (Z.to_nat (2 ^ 20)) longBody)) client.
Proof.
  assert (Hlen : (2 ^ 20 < Z.of_nat (length longBody))%Z).
  { unfold longBody. rewrite repeat_length, Z2Nat.id by lia. reflexivity. }
  exact (proj1 (proj2 (proj2 (handleMutate_truncates_long_bodies NewRecorder
           (NewRequest "POST" "application/json" longBody) client eq_refl eq_refl Hlen)))).
Defined.

End OnTheFixtures.

(** ** The decision engine: the remaining exits *)

Section DecisionEngineExits.
Context {Quantity : Type} `{!Imports Quantity}.
Implicit Types (req : Req.t) (client : SnapshotClient Quantity) (pvc : PVC.t Quantity).

(** X1. A decodable, trigger-labelled claim whose snapshot is fetched but
    has no status, or a status without a restore size, is allowed without
    a patch, whatever size it requests; the snapshot was looked up once. *)
Theorem reviewPVC_skips_snapshot_without_restore_size req client pvc
    (name ns : string) snapshot :
  requestDecodesTo req pvc ->
  hasTriggerLabel pvc ->
  snapshotRef pvc = (name, ns) -> name <> "" ->
  client ns name = Ok snapshot ->
  (snapshotv1.VolumeSnapshot.Status snapshot = None
   \/ exists status, snapshotv1.VolumeSnapshot.Status snapshot = Some status
        /\ snapshotv1.VolumeSnapshotStatus.RestoreSize status = None) ->
  value (reviewPVC req client) = Resp.mk "" true None None None
  /\ lookups (events (reviewPVC req client)) = [(ns, name)].
Proof.
  unfold requestDecodesTo.
  intros Hdec Hlab%hasTriggerLabel_spec Href Hname Hget Hsize.
  assert (Hnone : restoreSizeOf snapshot = None).
  { unfold restoreSizeOf. destruct Hsize as [-> | (status & -> & ->)]; reflexivity. }
  unfold reviewPVC, Get.
  rewrite Hdec, Hlab, Href, (bool_decide_eq_false_2 _ Hname). simpl.
  rewrite Hget. simpl. rewrite Hnone. split; reflexivity.
Qed.

(** X2. A decodable, trigger-labelled claim that requests no storage is
    allowed without a patch, even though its snapshot was fetched and
    records a restore size. *)
Theorem reviewPVC_skips_claim_without_storage_request req client pvc
    (name ns : string) snapshot status (R : Quantity) :
  requestDecodesTo req pvc ->
  hasTriggerLabel pvc ->
  snapshotRef pvc = (name, ns) -> name <> "" ->
  client ns name = Ok snapshot ->
  snapshotv1.VolumeSnapshot.Status snapshot = Some status ->
  snapshotv1.VolumeSnapshotStatus.RestoreSize status = Some R ->
  storageRequest pvc = None ->
  value (reviewPVC req client) = Resp.mk "" true None None None
  /\ lookups (events (reviewPVC req client)) = [(ns, name)].
Proof.
  unfold requestDecodesTo, storageRequest.
  intros Hdec Hlab%hasTriggerLabel_spec Href Hname Hget Hst HR HS.
  unfold reviewPVC, Get, restoreSizeOf.
  rewrite Hdec, Hlab, Href, (bool_decide_eq_false_2 _ Hname). simpl.
  rewrite Hget. simpl. rewrite Hst, HR, HS. split; reflexivity.
Qed.

(** X3. When the claim is oversized but the correction cannot be encoded,
    the verdict is still allowed: it carries no patch and no patch type,
    and the text of the encoding error as its message. *)
Theorem reviewPVC_allows_when_patch_cannot_be_encoded req client pvc
    (name ns : string) snapshot status (R S : Quantity) err :
  requestDecodesTo req pvc ->
  hasTriggerLabel pvc ->
  snapshotRef pvc = (name, ns) -> name <> "" ->
  client ns name = Ok snapshot ->
  snapshotv1.VolumeSnapshot.Status snapshot = Some status ->
  snapshotv1.VolumeSnapshotStatus.RestoreSize status = Some R ->
  storageRequest pvc = Some S ->
  (0 < Quantity_Cmp S R)%Z ->
  json_Marshal_patch (correction R) = Err err ->
  value (reviewPVC req client)
  = Resp.mk "" true (Some (metav1.Status.mk err)) None None.
Proof.
  unfold requestDecodesTo, storageRequest, correction.
  intros Hdec Hlab%hasTriggerLabel_spec Href Hname Hget Hst HR HS Hcmp Hm.
  unfold reviewPVC, Get, restoreSizeOf.
  rewrite Hdec, Hlab, Href, (bool_decide_eq_false_2 _ Hname). simpl.
  rewrite Hget. simpl. rewrite Hst, HR, HS.
  rewrite (proj2 (Z.ltb_lt _ _) Hcmp). simpl. rewrite Hm. reflexivity.
Qed.

(** X4. A patch is issued only in the oversize case: if the verdict
    carries a patch, the claim decoded, carries the trigger label and
    resolves to a snapshot that was fetched and records a restore size R,
    the claim requests a size S that compares greater than R, the patch is
    the encoding of the correction to R, and the verdict carries nothing
    else.  Under exact comparison R is strictly smaller than S: the engine
    never grows a claim. *)
Theorem reviewPVC_patches_only_oversized_claims req client (patchBytes : bytes) :
  Resp.Patch (value (reviewPVC req client)) = Some patchBytes ->
  exists pvc (name ns : string) snapshot status (R S : Quantity),
    requestDecodesTo req pvc
    /\ hasTriggerLabel pvc
    /\ snapshotRef pvc = (name, ns) /\ name <> ""
    /\ client ns name = Ok snapshot
    /\ snapshotv1.VolumeSnapshot.Status snapshot = Some status
    /\ snapshotv1.VolumeSnapshotStatus.RestoreSize status = Some R
    /\ storageRequest pvc = Some S
    /\ (0 < Quantity_Cmp S R)%Z
    /\ (forall num, exactComparison num -> (num R < num S)%Q)
    /\ json_Marshal_patch (correction R) = Ok patchBytes
    /\ value (reviewPVC req client)
       = Resp.mk "" true None (Some patchBytes) (Some admissionv1.PatchTypeJSONPatch).
Proof.
  unfold requestDecodesTo, storageRequest, correction, reviewPVC, Get, restoreSizeOf.
  destruct (json_Unmarshal_PersistentVolumeClaim _) as [pvc|err] eqn:Hdec;
    [|discriminate].
  simpl. destruct (lacksTriggerLabel pvc) eqn:Hlab; [discriminate|].
  destruct (snapshotRef pvc) as [name ns] eqn:Href.
  destruct (bool_decide (name = "")) eqn:Hname; [discriminate|].
  apply bool_decide_eq_false in Hname. simpl.
  destruct (client ns name) as [snapshot|err] eqn:Hget; [|discriminate]. simpl.
  destruct (snapshotv1.VolumeSnapshot.Status snapshot) as [status|] eqn:Hst;
    [|discriminate].
  destruct (snapshotv1.VolumeSnapshotStatus.RestoreSize status) as [R|] eqn:HR;
    [|discriminate].
  destruct (_ !! ResourceStorage) as [S|] eqn:HS; [|discriminate].
  destruct (0 <? Quantity_Cmp S R)%Z eqn:Hcmp; [|discriminate].
  apply Z.ltb_lt in Hcmp. simpl.
  destruct (json_Marshal_patch _) as [bs|err] eqn:Hm; [|discriminate].
  simpl. intros [= ->].
  exists pvc, name, ns, snapshot, status, R, S.
  repeat (split; [first [assumption | reflexivity | apply hasTriggerLabel_spec; assumption]|]).
  split; [|split; [assumption | reflexivity]].
  intros num Hexact. apply Qgt_alt. rewrite (Hexact S R) in Hcmp.
  destruct (num S ?= num R)%Q; [lia | lia | reflexivity].
Qed.

(** X5. The shape of every verdict of the engine: its UID is empty (the
    handler fills it in), a patch and a patch type come together or not at
    all, and a verdict with a patch carries no message. *)
Theorem reviewPVC_verdict_shape req client :
  Resp.UID (value (reviewPVC req client)) = ""
  /\ (Resp.Patch (value (reviewPVC req client)) = None
      <-> Resp.PatchType (value (reviewPVC req client)) = None)
  /\ (Resp.Patch (value (reviewPVC req client)) <> None ->
      Resp.Result (value (reviewPVC req client)) = None).
Proof.
  unfold reviewPVC, Get. all_branches; (split; [reflexivity|]); split;
    first [reflexivity | split; congruence | congruence].
Qed.

(** X6. A verdict carries a message exactly when the run logged at error
    severity, and the message is the last argument of an error line. *)
Theorem reviewPVC_message_iff_error_logged req client :
  (Resp.Result (value (reviewPVC req client)) <> None
   <-> loggedError (events (reviewPVC req client)) = true)
  /\ (forall err,
        Resp.Result (value (reviewPVC req client)) = Some (metav1.Status.mk err) ->
        exists line format args,
          In (Klog ERROR line format args) (events (reviewPVC req client))
          /\ last args = Some err).
Proof.
  unfold reviewPVC, Get.
  all_branches;
    (split;
     [ split; intros Hside;
       first [reflexivity | discriminate Hside | discriminate
             | exfalso; apply Hside; reflexivity]
     | intros err0 Hmsg; simplify_eq;
       (eexists _, _, _; split;
        [simpl; repeat (first [left; reflexivity | right]) | reflexivity]) ]).
Qed.

(** X7. The engine reads at most one snapshot per review, puts nothing on
    the wire and leaves the request body alone. *)
Theorem reviewPVC_single_lookup req client :
  (length (lookups (events (reviewPVC req client))) <= 1)%nat
  /\ replyCount (events (reviewPVC req client)) = 0%nat
  /\ closeCount (events (reviewPVC req client)) = 0%nat.
Proof.
  unfold reviewPVC, Get. all_branches; repeat split; simpl; lia.
Qed.

(** X8. The verdict, and the lookups made for it, depend on the request
    only through its raw object and on the client only through its answer
    for the reference the claim resolves to: the UID, kind, name and
    namespace of the request are not consulted, nor is any other snapshot. *)
Theorem reviewPVC_reads_object_and_referenced_snapshot_only req1 req2 client1 client2 :
  runtime.RawExtension.Raw (Req.Object req1) = runtime.RawExtension.Raw (Req.Object req2) ->
  (forall pvc, requestDecodesTo req1 pvc ->
     client1 (snd (snapshotRef pvc)) (fst (snapshotRef pvc))
     = client2 (snd (snapshotRef pvc)) (fst (snapshotRef pvc))) ->
  value (reviewPVC req1 client1) = value (reviewPVC req2 client2)
  /\ lookups (events (reviewPVC req1 client1)) = lookups (events (reviewPVC req2 client2)).
Proof.
  unfold requestDecodesTo. intros Hraw Hclient.
  unfold reviewPVC, Get. rewrite <- Hraw.
  destruct (json_Unmarshal_PersistentVolumeClaim _) as [pvc|err]; [|split; reflexivity].
  specialize (Hclient pvc eq_refl).
  destruct (lacksTriggerLabel pvc); [split; reflexivity|].
  destruct (snapshotRef pvc) as [name ns]. simpl in Hclient.
  destruct (bool_decide (name = "")); [split; reflexivity|].
  simpl. rewrite <- Hclient.
  all_branches; split; reflexivity.
Qed.

(** A resolved name is the name of a data source of the claim that is a
    snapshot of the snapshot group; the namespace is that of the claim, or
    the one the reference variant names. *)
Lemma snapshotRef_sound pvc (name ns : string) :
  snapshotRef pvc = (name, ns) -> name <> "" ->
  (exists ds,
     corev1.PersistentVolumeClaimSpec.DataSource (PVC.Spec pvc) = Some ds
     /\ corev1.TypedLocalObjectReference.Kind ds = "VolumeSnapshot"
     /\ corev1.TypedLocalObjectReference.APIGroup ds = Some snapshotv1.GroupName
     /\ corev1.TypedLocalObjectReference.Name ds = name
     /\ ns = PVC.Namespace pvc)
  \/ (exists dsr,
        corev1.PersistentVolumeClaimSpec.DataSourceRef (PVC.Spec pvc) = Some dsr
        /\ corev1.TypedObjectReference.Kind dsr = "VolumeSnapshot"
        /\ corev1.TypedObjectReference.APIGroup dsr = Some snapshotv1.GroupName
        /\ corev1.TypedObjectReference.Name dsr = name
        /\ (ns = PVC.Namespace pvc
            \/ corev1.TypedObjectReference.Namespace dsr = Some ns)).
Proof.
  unfold snapshotRef. intros Href Hname.
  destruct (corev1.PersistentVolumeClaimSpec.DataSource (PVC.Spec pvc)) as [ds|] eqn:Hds.
  - destruct (matchesSnapshot (corev1.TypedLocalObjectReference.Kind ds) _) eqn:Hm.
    + apply matchesSnapshot_spec in Hm as [Hk Hg].
      destruct (bool_decide (corev1.TypedLocalObjectReference.Name ds = "")) eqn:Hn.
      * destruct (corev1.PersistentVolumeClaimSpec.DataSourceRef (PVC.Spec pvc))
          as [dsr|] eqn:Hdsr.
        -- destruct (matchesSnapshot (corev1.TypedObjectReference.Kind dsr) _) eqn:Hm'.
           ++ apply matchesSnapshot_spec in Hm' as [Hk' Hg'].
              right. exists dsr. simplify_eq.
              repeat (split; [first [assumption | reflexivity]|]).
              destruct (corev1.TypedObjectReference.Namespace dsr) as [n|]; [|by left].
              destruct (bool_decide (n = "")); [by left | by right].
           ++ simplify_eq. left. exists ds. auto.
        -- simplify_eq. left. exists ds. auto.
      * simplify_eq. left. exists ds. auto.
    + simpl in Href.
      destruct (corev1.PersistentVolumeClaimSpec.DataSourceRef (PVC.Spec pvc))
        as [dsr|] eqn:Hdsr; [|simplify_eq].
      destruct (matchesSnapshot (corev1.TypedObjectReference.Kind dsr) _) eqn:Hm';
        [|simplify_eq].
      apply matchesSnapshot_spec in Hm' as [Hk' Hg'].
      right. exists dsr. simplify_eq.
      repeat (split; [first [assumption | reflexivity]|]).
      destruct (corev1.TypedObjectReference.Namespace dsr) as [n|]; [|by left].
      destruct (bool_decide (n = "")); [by left | by right].
  - simpl in Href.
    destruct (corev1.PersistentVolumeClaimSpec.DataSourceRef (PVC.Spec pvc))
      as [dsr|] eqn:Hdsr; [|simplify_eq].
    destruct (matchesSnapshot (corev1.TypedObjectReference.Kind dsr) _) eqn:Hm';
      [|simplify_eq].
    apply matchesSnapshot_spec in Hm' as [Hk' Hg'].
    right. exists dsr. simplify_eq.
    repeat (split; [first [assumption | reflexivity]|]).
    destruct (corev1.TypedObjectReference.Namespace dsr) as [n|]; [|by left].
    destruct (bool_decide (n = "")); [by left | by right].
Qed.

(** X9. Whatever the engine looks up is referenced by the claim under
    review: the claim decoded and carries the trigger label, the name is
    not empty and is the name of one of its data sources, a snapshot of
    the snapshot group, and the namespace is the claim's own or the one its
    reference variant names. *)
Theorem reviewPVC_looks_up_only_referenced_snapshots req client (ns name : string) :
  In (ns, name) (lookups (events (reviewPVC req client))) ->
  exists pvc,
    requestDecodesTo req pvc
    /\ hasTriggerLabel pvc
    /\ name <> ""
    /\ ((exists ds,
           corev1.PersistentVolumeClaimSpec.DataSource (PVC.Spec pvc) = Some ds
           /\ corev1.TypedLocalObjectReference.Kind ds = "VolumeSnapshot"
           /\ corev1.TypedLocalObjectReference.APIGroup ds = Some snapshotv1.GroupName
           /\ corev1.TypedLocalObjectReference.Name ds = name
           /\ ns = PVC.Namespace pvc)
        \/ (exists dsr,
              corev1.PersistentVolumeClaimSpec.DataSourceRef (PVC.Spec pvc) = Some dsr
              /\ corev1.TypedObjectReference.Kind dsr = "VolumeSnapshot"
              /\ corev1.TypedObjectReference.APIGroup dsr = Some snapshotv1.GroupName
              /\ corev1.TypedObjectReference.Name dsr = name
              /\ (ns = PVC.Namespace pvc
                  \/ corev1.TypedObjectReference.Namespace dsr = Some ns))).
Proof.
  intros Hin.
  destruct (json_Unmarshal_PersistentVolumeClaim
              (runtime.RawExtension.Raw (Req.Object req))) as [pvc|err] eqn:Hdec.
  - destruct (lacksTriggerLabel pvc) eqn:Hlab.
    + unfold reviewPVC in Hin. rewrite Hdec, Hlab in Hin. destruct Hin.
    + apply hasTriggerLabel_spec in Hlab.
      rewrite (reviewPVC_lookups req client pvc Hdec Hlab) in Hin.
      destruct (snapshotRef pvc) as [name' ns'] eqn:Href. simpl in Hin.
      destruct (bool_decide (name' = "")) eqn:Hname; [destruct Hin|].
      apply bool_decide_eq_false in Hname.
      destruct Hin as [[= -> ->] | []].
      exists pvc. split; [exact Hdec|]. split; [exact Hlab|]. split; [exact Hname|].
      apply snapshotRef_sound; assumption.
  - unfold reviewPVC in Hin. rewrite Hdec in Hin. destruct Hin.
Qed.

(** X10. The reference resolves to a name exactly when one of the two
    data-source fields is a snapshot of the snapshot group with a
    non-empty name. *)
Theorem snapshotRef_resolves_iff pvc :
  fst (snapshotRef pvc) <> ""
  <-> (exists ds,
         corev1.PersistentVolumeClaimSpec.DataSource (PVC.Spec pvc) = Some ds
         /\ corev1.TypedLocalObjectReference.Kind ds = "VolumeSnapshot"
         /\ corev1.TypedLocalObjectReference.APIGroup ds = Some snapshotv1.GroupName
         /\ corev1.TypedLocalObjectReference.Name ds <> "")
      \/ (exists dsr,
            corev1.PersistentVolumeClaimSpec.DataSourceRef (PVC.Spec pvc) = Some dsr
            /\ corev1.TypedObjectReference.Kind dsr = "VolumeSnapshot"
            /\ corev1.TypedObjectReference.APIGroup dsr = Some snapshotv1.GroupName
            /\ corev1.TypedObjectReference.Name dsr <> "").
Proof.
  split.
  - intros Hname. destruct (snapshotRef pvc) as [name ns] eqn:Href. simpl in Hname.
    destruct (snapshotRef_sound pvc name ns Href Hname)
      as [(ds & ? & ? & ? & <- & ?) | (dsr & ? & ? & ? & <- & ?)];
      [left; exists ds | right; exists dsr]; auto.
  - intros [(ds & Hds & Hk & Hg & Hn) | (dsr & Hdsr & Hk & Hg & Hn)].
    + unfold snapshotRef. rewrite Hds.
      rewrite (proj2 (matchesSnapshot_spec _ _) (conj Hk Hg)).
      rewrite (bool_decide_eq_false_2 _ Hn). exact Hn.
    + unfold snapshotRef. rewrite Hdsr.
      rewrite (proj2 (matchesSnapshot_spec (corev1.TypedObjectReference.Kind dsr) _)
                 (conj Hk Hg)).
      destruct (corev1.PersistentVolumeClaimSpec.DataSource (PVC.Spec pvc)) as [ds|];
        [|exact Hn].
      destruct (matchesSnapshot _ _); [|exact Hn].
      destruct (bool_decide (corev1.TypedLocalObjectReference.Name ds = "")) eqn:E;
        [exact Hn|].
      apply bool_decide_eq_false in E. exact E.
Qed.

End DecisionEngineExits.

(** ** The request handler: every run *)

(** Go through the members of a concrete list. *)
Ltac in_cases H :=
  simpl in H; repeat (destruct H as [H|H]; [simplify_eq|]); try (destruct H).

Lemma replyCount_app (t1 t2 : list Event) :
  replyCount (t1 ++ t2) = (replyCount t1 + replyCount t2)%nat.
Proof. unfold replyCount. rewrite List.filter_app, length_app. reflexivity. Qed.

Lemma closeCount_app (t1 t2 : list Event) :
  closeCount (t1 ++ t2) = (closeCount t1 + closeCount t2)%nat.
Proof. unfold closeCount. rewrite List.filter_app, length_app. reflexivity. Qed.

Lemma inside_counts (t : list Event) :
  forallb fromReviewPVC t = true -> replyCount t = 0%nat /\ closeCount t = 0%nat.
Proof.
  unfold replyCount, closeCount. induction t as [|e t IH]; simpl; [auto|].
  intros [He Ht]%andb_prop. destruct (IH Ht) as [IH1 IH2].
  destruct e; simpl in *; try discriminate; auto.
Qed.

Lemma replyBody_quiet (t : list Event) : quiet t -> replyBody t = [].
Proof.
  unfold quiet. induction t as [|e t IH]; simpl; [reflexivity|].
  intros [He Ht]%andb_prop. destruct e; simpl in *; try discriminate; auto.
Qed.

Lemma replyBody_quiet_app (t1 t2 : list Event) :
  quiet t1 -> replyBody (t1 ++ t2) = replyBody t2.
Proof.
  unfold quiet. induction t1 as [|e t1 IH]; simpl; [reflexivity|].
  intros [He Ht]%andb_prop. destruct e; simpl in *; try discriminate; auto.
Qed.

Section RequestHandlerRuns.
Context {Quantity : Type} `{!Imports Quantity}.
Implicit Types (w : http.ResponseWriter) (r : http.Request)
  (client : SnapshotClient Quantity) (ar : Review.t) (request : Req.t).

(** A request is accepted, or the run is one error line, one call of
    [http.Error] with a 4xx status, and the close of the body. *)
Lemma handleMutate_cases w r client :
  (exists ar request, accepted r ar request)
  \/ ((~ exists ar request, accepted r ar request)
      /\ exists line format args msg code,
          events (handleMutate w r client)
          = [Klog ERROR line format args; HttpError msg code; BodyClose]
          /\ (code = 400 \/ code = 405 \/ code = 415)).
Proof.
  destruct (decide (http.Method r = http.MethodPost)) as [Hm|Hm].
  2:{ right. split; [intros (ar & request & H & _); contradiction|].
      unfold handleMutate. rewrite (bool_decide_eq_true_2 _ Hm).
      eexists _, _, _, _, _. split; [reflexivity|]. right; left; reflexivity. }
  destruct (decide (http.Header_Get (http.Header r) "Content-Type" = "application/json"))
    as [Hct|Hct].
  2:{ right. split; [intros (ar & request & _ & H & _); contradiction|].
      unfold handleMutate.
      rewrite (bool_decide_eq_false_2 (http.Method r <> http.MethodPost)) by tauto.
      rewrite (bool_decide_eq_true_2 _ Hct).
      eexists _, _, _, _, _. split; [reflexivity|]. right; right; reflexivity. }
  destruct (io.ReadAll (io.LimitReader (http.Body r) (Z.shiftl 1 20)))
    as [body failure] eqn:Hread.
  assert (Hrejected :
            (failure <> None \/ body = []
             \/ (exists err, json_Unmarshal_AdmissionReview body = Err err)
             \/ (exists ar, json_Unmarshal_AdmissionReview body = Ok ar
                            /\ Review.Request ar = None)) ->
            exists line format args msg code,
              events (handleMutate w r client)
              = [Klog ERROR line format args; HttpError msg code; BodyClose]
              /\ (code = 400 \/ code = 405 \/ code = 415)).
  { intros Hbad. unfold handleMutate.
    rewrite (bool_decide_eq_false_2 (http.Method r <> http.MethodPost)) by tauto.
    rewrite (bool_decide_eq_false_2 (http.Header_Get _ _ <> _)) by tauto.
    rewrite Hread.
    destruct failure as [err|];
      [eexists _, _, _, _, _; split; [reflexivity | left; reflexivity]|].
    destruct body as [|b body];
      [eexists _, _, _, _, _; split; [reflexivity | left; reflexivity]|].
    rewrite (bool_decide_eq_false_2 (length (b :: body) = 0%nat)) by discriminate.
    destruct Hbad as [H | [H | [[err H] | (ar & H & Hreq)]]];
      [congruence | discriminate | |]; rewrite H; [|rewrite Hreq];
      eexists _, _, _, _, _; (split; [reflexivity | left; reflexivity]). }
  destruct failure as [err|].
  { right. split; [|apply Hrejected; left; discriminate].
    intros (ar & request & _ & _ & body' & H & _). congruence. }
  destruct body as [|b body].
  { right. split; [|apply Hrejected; right; left; reflexivity].
    intros (ar & request & _ & _ & body' & H & Hne & _). congruence. }
  destruct (json_Unmarshal_AdmissionReview (b :: body)) as [ar|err] eqn:Hdec.
  2:{ right. split; [|apply Hrejected; right; right; left; eauto].
      intros (ar & request & _ & _ & body' & H & _ & Hd & _). congruence. }
  destruct (Review.Request ar) as [request|] eqn:Hreq.
  2:{ right. split; [|apply Hrejected; right; right; right; eauto].
      intros (ar' & request & _ & _ & body' & H & _ & Hd & Hr). congruence. }
  left. exists ar, request. split; [exact Hm|]. split; [exact Hct|].
  exists (b :: body). repeat split; auto; discriminate.
Qed.

Lemma writeAdmissionReviewResponse_counts w review :
  (replyCount (events (writeAdmissionReviewResponse w review)) <= 1)%nat
  /\ closeCount (events (writeAdmissionReviewResponse w review)) = 0%nat.
Proof.
  unfold writeAdmissionReviewResponse, http.Write_.
  all_branches; split; unfold replyCount, closeCount; simpl; lia.
Qed.


(** X12. The status of every exchange is 200, 400, 405 or 415, and it is
    200 exactly when the request passes the transport checks and carries an
    envelope with an inner request. *)
Theorem handleMutate_status w r client :
  (statusCode (events (handleMutate w r client)) = 200
   \/ statusCode (events (handleMutate w r client)) = 400
   \/ statusCode (events (handleMutate w r client)) = 405
   \/ statusCode (events (handleMutate w r client)) = 415)
  /\ (statusCode (events (handleMutate w r client)) = 200
      <-> exists ar request, accepted r ar request).
Proof.
  destruct (handleMutate_cases w r client)
    as [(ar & request & Hacc) | (Hno & line & format & args & msg & code & -> & Hcode)].
  - pose proof (handleMutate_accepted_status w r client ar request Hacc) as Hs.
    split; [left; exact Hs|]. split; [eauto | intros _; exact Hs].
  - simpl. split; [tauto|]. split; [|contradiction].
    intros ->. destruct Hcode as [? | [? | ?]]; discriminate.
Qed.

(** X13. The handler closes the request body exactly once, as the last
    thing it does, on every path. *)
Theorem handleMutate_closes_body_once w r client :
  closeCount (events (handleMutate w r client)) = 1%nat
  /\ last (events (handleMutate w r client)) = Some BodyClose.
Proof.
  destruct (handleMutate_cases w r client)
    as [(ar & request & Hacc) | (_ & line & format & args & msg & code & -> & _)];
    [|split; reflexivity].
  rewrite (handleMutate_accepted w r client ar request Hacc).
  split.
  - rewrite !closeCount_app.
    rewrite (proj2 (writeAdmissionReviewResponse_counts w _)).
    assert (closeCount
              (if unsupportedKind request
               then [Klog WARNING 192 "Unsupported GVK %s - This should not happen, skipping."
                       [metav1.GroupVersionKind.String (Req.Kind request)]]
               else events (reviewPVC request client)) = 0%nat) as ->.
    { destruct (unsupportedKind request); [reflexivity|].
      apply inside_counts, reviewPVC_events_inside. }
    destruct (value (writeAdmissionReviewResponse w _)); reflexivity.
  - rewrite !app_assoc. apply last_snoc.
Qed.

(** X14. The handler answers at most once: a run holds at most one call
    of [http.Error] or [Write], never both.  A run whose status is not 200
    holds exactly one, a call of [http.Error], and writes no review. *)
Theorem handleMutate_answers_at_most_once w r client :
  (replyCount (events (handleMutate w r client)) <= 1)%nat
  /\ (statusCode (events (handleMutate w r client)) <> 200 ->
      replyCount (events (handleMutate w r client)) = 1%nat
      /\ forall p e, ~ In (Write p e) (events (handleMutate w r client))).
Proof.
  destruct (handleMutate_cases w r client)
    as [(ar & request & Hacc) | (_ & line & format & args & msg & code & -> & _)].
  - split.
    + rewrite (handleMutate_accepted w r client ar request Hacc).
      rewrite !replyCount_app.
      pose proof (proj1 (writeAdmissionReviewResponse_counts w
        (Review.set_Response
           (if unsupportedKind request then allowed
            else Resp.set_UID (Req.UID request) (value (reviewPVC request client))) ar)))
        as Hw.
      assert (replyCount
                (if unsupportedKind request
                 then [Klog WARNING 192 "Unsupported GVK %s - This should not happen, skipping."
                         [metav1.GroupVersionKind.String (Req.Kind request)]]
                 else events (reviewPVC request client)) = 0%nat) as ->.
      { destruct (unsupportedKind request); [reflexivity|].
        apply inside_counts, reviewPVC_events_inside. }
      set (n := replyCount (events (writeAdmissionReviewResponse w _))) in *.
      destruct (value (writeAdmissionReviewResponse w _));
        unfold replyCount; simpl; lia.
    + intros Hs. exfalso. apply Hs.
      apply (handleMutate_accepted_status w r client ar request Hacc).
  - split; [unfold replyCount; simpl; lia|]. intros _. split; [reflexivity|].
    intros p e Hin. in_cases Hin.
Qed.

(** ** The request handler: the supported kind, end to end *)

Lemma accepted_answer r ar request (verdict : Resp.t) :
  accepted r ar request ->
  Review.set_Response (Resp.set_UID (Req.UID request) verdict) ar
  = answerTo ar request verdict.
Proof.
  intros (_ & _ & body & _ & _ & _ & Hreq).
  unfold Review.set_Response, answerTo, Resp.set_UID. rewrite Hreq. reflexivity.
Qed.

Lemma writeAdmissionReviewResponse_lookups w review :
  lookups (events (writeAdmissionReviewResponse w review)) = [].
Proof.
  unfold writeAdmissionReviewResponse, http.Write_. all_branches; reflexivity.
Qed.

(** The run on an accepted request of the supported kind, in terms of the
    run of [reviewPVC] on its inner request. *)
Lemma handleMutate_supported_run w r client ar request :
  accepted r ar request ->
  unsupportedKind request = false ->
  sends w (answerTo ar request (value (reviewPVC request client)))
    (events (handleMutate w r client))
  /\ lookups (events (handleMutate w r client))
     = lookups (events (reviewPVC request client))
  /\ forall bs,
       json_Marshal_AdmissionReview
         (answerTo ar request (value (reviewPVC request client))) = Ok bs ->
       http.WriteResult w bs = None ->
       replyBody (events (handleMutate w r client)) = bs.
Proof.
  intros Hacc Hk.
  pose proof (handleMutate_sends w r client ar request Hacc) as Hs.
  pose proof (handleMutate_accepted w r client ar request Hacc) as Hrun.
  simpl in Hrun. rewrite Hk in Hs, Hrun.
  rewrite (accepted_answer r ar request _ Hacc) in Hs, Hrun.
  split; [exact Hs|]. rewrite Hrun. split.
  - rewrite !lookups_app, writeAdmissionReviewResponse_lookups.
    destruct (value (writeAdmissionReviewResponse w _)); simpl; apply app_nil_r.
  - intros bs Hm Hw.
    destruct (writeAdmissionReviewResponse_body w _ bs Hm Hw) as [-> ->].
    rewrite replyBody_quiet_app by apply reviewPVC_quiet.
    simpl. apply app_nil_r.
Qed.

(** The run of [reviewPVC] in the oversize case. *)
Lemma reviewPVC_oversized_run req client (pvc : PVC.t Quantity)
    (name ns : string) snapshot status (R S : Quantity) (patchBytes : bytes) :
  requestDecodesTo req pvc ->
  hasTriggerLabel pvc ->
  snapshotRef pvc = (name, ns) -> name <> "" ->
  client ns name = Ok snapshot ->
  snapshotv1.VolumeSnapshot.Status snapshot = Some status ->
  snapshotv1.VolumeSnapshotStatus.RestoreSize status = Some R ->
  storageRequest pvc = Some S ->
  (0 < Quantity_Cmp S R)%Z ->
  json_Marshal_patch (correction R) = Ok patchBytes ->
  value (reviewPVC req client)
  = Resp.mk "" true None (Some patchBytes) (Some admissionv1.PatchTypeJSONPatch)
  /\ lookups (events (reviewPVC req client)) = [(ns, name)].
Proof.
  unfold requestDecodesTo, storageRequest, correction.
  intros Hdec Hlab%hasTriggerLabel_spec Href Hname Hget Hst HR HS Hcmp Hm.
  unfold reviewPVC, Get, restoreSizeOf.
  rewrite Hdec, Hlab, Href, (bool_decide_eq_false_2 _ Hname). simpl.
  rewrite Hget. simpl. rewrite Hst, HR, HS.
  rewrite (proj2 (Z.ltb_lt _ _) Hcmp). simpl. rewrite Hm. split; reflexivity.
Qed.

(** X15. On an accepted request of the supported kind the handler relays
    the verdict of [reviewPVC] unchanged but for the UID, which becomes
    that of the request; the envelope keeps its type and its request; the
    handler adds no lookup of its own; and the reply body is the encoding
    of that envelope when it can be encoded and written. *)
Theorem handleMutate_relays_verdict w r client ar request :
  accepted r ar request ->
  unsupportedKind request = false ->
  sends w (answerTo ar request (value (reviewPVC request client)))
    (events (handleMutate w r client))
  /\ lookups (events (handleMutate w r client))
     = lookups (events (reviewPVC request client))
  /\ (length (lookups (events (handleMutate w r client))) <= 1)%nat
  /\ forall bs,
       json_Marshal_AdmissionReview
         (answerTo ar request (value (reviewPVC request client))) = Ok bs ->
       http.WriteResult w bs = None ->
       replyBody (events (handleMutate w r client)) = bs.
Proof.
  intros Hacc Hk.
  destruct (handleMutate_supported_run w r client ar request Hacc Hk) as (Hs & Hl & Hb).
  split; [exact Hs|]. split; [exact Hl|]. split; [|exact Hb].
  rewrite Hl. unfold reviewPVC, Get. all_branches; lia.
Qed.

(** X16. End to end: a POST of application/json whose envelope carries an
    oversized, trigger-labelled claim of the supported kind gets status
    200, and its body is the encoding of the envelope whose verdict has the
    UID of the request, is allowed, and carries the JSON patch that replaces
    the storage request by the restore size; one snapshot was looked up. *)
Theorem handleMutate_corrects_oversized_claim w r client ar request
    (pvc : PVC.t Quantity) (name ns : string) snapshot status (R S : Quantity)
    (patchBytes bs : bytes) :
  accepted r ar request ->
  unsupportedKind request = false ->
  requestDecodesTo request pvc ->
  hasTriggerLabel pvc ->
  snapshotRef pvc = (name, ns) -> name <> "" ->
  client ns name = Ok snapshot ->
  snapshotv1.VolumeSnapshot.Status snapshot = Some status ->
  snapshotv1.VolumeSnapshotStatus.RestoreSize status = Some R ->
  storageRequest pvc = Some S ->
  (0 < Quantity_Cmp S R)%Z ->
  json_Marshal_patch (correction R) = Ok patchBytes ->
  json_Marshal_AdmissionReview
    (Review.mk (Review.TypeMeta ar) (Some request)
       (Some (Resp.mk (Req.UID request) true None (Some patchBytes)
                (Some admissionv1.PatchTypeJSONPatch)))) = Ok bs ->
  http.WriteResult w bs = None ->
  statusCode (events (handleMutate w r client)) = 200
  /\ replyBody (events (handleMutate w r client)) = bs
  /\ lookups (events (handleMutate w r client)) = [(ns, name)].
Proof.
  intros Hacc Hk Hdec Hlab Href Hname Hget Hst HR HS Hcmp Hp Hm Hw.
  destruct (reviewPVC_oversized_run request client pvc name ns snapshot status R S
              patchBytes Hdec Hlab Href Hname Hget Hst HR HS Hcmp Hp) as [Hv Hl].
  destruct (handleMutate_supported_run w r client ar request Hacc Hk) as (_ & Hl' & Hb).
  split; [apply (handleMutate_accepted_status w r client ar request Hacc)|].
  split; [|rewrite Hl'; exact Hl].
  apply Hb; [|exact Hw]. rewrite Hv. exact Hm.
Qed.

(** X17. When the answer to an accepted request cannot be encoded, the
    exchange still has status 200 but nothing is sent: no header is set
    and the body is empty.  The failure is logged twice, by
    [writeAdmissionReviewResponse] and by the handler. *)
Theorem handleMutate_unserializable_answer w r client ar request err :
  accepted r ar request ->
  (forall resp, json_Marshal_AdmissionReview (Review.set_Response resp ar) = Err err) ->
  statusCode (events (handleMutate w r client)) = 200
  /\ replyBody (events (handleMutate w r client)) = []
  /\ quiet (events (handleMutate w r client))
  /\ exists pre line,
       events (handleMutate w r client)
       = pre ++ [Klog ERROR 213 "Could not marshal response: %v" [err];
                 Klog ERROR line "Could not write response: %v" [err];
                 BodyClose].
Proof.
  intros Hacc Hfail.
  assert (Hrun : exists pre line,
             quiet pre
             /\ events (handleMutate w r client)
                = pre ++ [Klog ERROR 213 "Could not marshal response: %v" [err];
                          Klog ERROR line "Could not write response: %v" [err];
                          BodyClose]).
  { rewrite (handleMutate_accepted w r client ar request Hacc).
    unfold writeAdmissionReviewResponse. rewrite Hfail. simpl.
    eexists _, _. split; [|reflexivity].
    destruct (unsupportedKind request); [reflexivity | apply reviewPVC_quiet]. }
  destruct Hrun as (pre & line & Hpre & Hrun).
  assert (Hq : quiet (events (handleMutate w r client))).
  { rewrite Hrun. apply quiet_app; [exact Hpre | reflexivity]. }
  split; [apply (handleMutate_accepted_status w r client ar request Hacc)|].
  split; [apply replyBody_quiet, Hq|]. split; [exact Hq|]. eauto.
Qed.

(** ** The request handler: reading the body *)

(** X18. A body of at most 2^20 bytes that ends cleanly is read whole and
    handed to the decoder as it is: the status is 200 when it is not empty
    and is a well-formed envelope, and 400 when it is empty or is not one. *)
Theorem handleMutate_reads_short_bodies_whole w r client :
  http.Method r = "POST" ->
  http.Header_Get (http.Header r) "Content-Type" = "application/json" ->
  (Z.of_nat (length (io.data (http.Body r))) <= 2 ^ 20)%Z ->
  io.failure (http.Body r) = None ->
  io.ReadAll (io.LimitReader (http.Body r) (Z.shiftl 1 20)) = (io.data (http.Body r), None)
  /\ (io.data (http.Body r) <> [] -> wellFormedEnvelope (io.data (http.Body r)) ->
      statusCode (events (handleMutate w r client)) = 200)
  /\ (io.data (http.Body r) = [] \/ ~ wellFormedEnvelope (io.data (http.Body r)) ->
      statusCode (events (handleMutate w r client)) = 400).
Proof.
  intros Hm Hct Hlen Hfail.
  change (Z.shiftl 1 20) with (2 ^ 20)%Z.
  set (limit := (2 ^ 20)%Z) in *.
  assert (Hread : io.ReadAll (io.LimitReader (http.Body r) limit)
                  = (io.data (http.Body r), None)).
  { unfold io.LimitReader.
    destruct (Z.of_nat (length (io.data (http.Body r))) <? limit)%Z eqn:E.
    - unfold io.ReadAll. rewrite Hfail. reflexivity.
    - apply Z.ltb_ge in E. unfold io.ReadAll. simpl. f_equal.
      apply take_ge. lia. }
  split; [exact Hread|]. split.
  - intros Hne (ar & request & Hdec & Hreq).
    apply (handleMutate_accepted_status w r client ar request).
    split; [exact Hm|]. split; [exact Hct|].
    exists (io.data (http.Body r)). auto.
  - intros Hbad.
    apply (handleMutate_bad_body w r client (io.data (http.Body r)) None Hm Hct Hread).
    destruct Hbad as [He | Hill]; [right; left; exact He|].
    right; right.
    destruct (json_Unmarshal_AdmissionReview (io.data (http.Body r))) as [ar|err] eqn:Hdec;
      [|left; eauto].
    right. exists ar. split; [reflexivity|].
    destruct (Review.Request ar) as [request|] eqn:Hreq; [|reflexivity].
    exfalso. apply Hill. exists ar, request. auto.
Qed.


End RequestHandlerRuns.

(** ** The further properties on the fixtures *)

Section OnTheFailureFixtures.
Import Test.

(** A snapshot without a status: the 21Gi claim is left alone. *)
Lemma reviewPVC_skips_snapshot_without_restore_size_witness :
  value (reviewPVC (createAdmissionRequest pvcKind "oversized") Faults.pendingClient)
  = Resp.mk "" true None None None
  /\ lookups (events (reviewPVC (createAdmissionRequest pvcKind "oversized")
                       Faults.pendingClient))
     = [("test-ns", "my-snapshot")].
Proof.
  apply (reviewPVC_skips_snapshot_without_restore_size
           (createAdmissionRequest pvcKind "oversized") Faults.pendingClient
           (createPVCFromSnapshot "test-ns" "my-pvc" "my-snapshot" (21 * Gi))
           "my-snapshot" "test-ns"
           (snapshotv1.VolumeSnapshot.mk (metav1.ObjectMeta.mk "my-snapshot" "test-ns" None) None)).
  - reflexivity.
  - exists triggerLabels. split; reflexivity.
  - reflexivity.
  - discriminate.
  - reflexivity.
  - left. reflexivity.
Defined.

(** A claim without a storage request is left alone. *)
Lemma reviewPVC_skips_claim_without_storage_request_witness :
  value (@reviewPVC Z Faults.imports (createAdmissionRequest pvcKind "no-request") client)
  = Resp.mk "" true None None None
  /\ lookups (events (@reviewPVC Z Faults.imports
                       (createAdmissionRequest pvcKind "no-request") client))
     = [("test-ns", "my-snapshot")].
Proof.
  apply (@reviewPVC_skips_claim_without_storage_request Z Faults.imports
           (createAdmissionRequest pvcKind "no-request") client
           Faults.noRequestPVC "my-snapshot" "test-ns"
           (createSnapshot "test-ns" "my-snapshot" (20 * Gi))
           (snapshotv1.VolumeSnapshotStatus.mk (Some (20 * Gi))) (20 * Gi)).
  - reflexivity.
  - exists triggerLabels. split; reflexivity.
  - reflexivity.
  - discriminate.
  - reflexivity.
  - reflexivity.
  - reflexivity.
  - reflexivity.
Defined.

(** With an encoder that fails, the oversized claim is allowed with the
    error of the encoder as its message. *)
Lemma reviewPVC_allows_when_patch_cannot_be_encoded_witness :
  value (@reviewPVC Z Faults.imports (createAdmissionRequest pvcKind "oversized") client)
  = Resp.mk "" true (Some (metav1.Status.mk "json: unsupported type")) None None.
Proof.
  apply (@reviewPVC_allows_when_patch_cannot_be_encoded Z Faults.imports
           (createAdmissionRequest pvcKind "oversized") client
           (createPVCFromSnapshot "test-ns" "my-pvc" "my-snapshot" (21 * Gi))
           "my-snapshot" "test-ns"
           (createSnapshot "test-ns" "my-snapshot" (20 * Gi))
           (snapshotv1.VolumeSnapshotStatus.mk (Some (20 * Gi)))
           (20 * Gi) (21 * Gi) "json: unsupported type").
  - reflexivity.
  - exists triggerLabels. split; reflexivity.
  - reflexivity.
  - discriminate.
  - reflexivity.
  - reflexivity.
  - reflexivity.
  - reflexivity.
  - reflexivity.
  - reflexivity.
Defined.

(** The patch of TestOversizedPVCGetsShrunk_DataSource comes from a
    restore size that compares smaller than the request. *)
Lemma reviewPVC_patches_only_oversized_claims_witness :
  exists (pvc : PVC.t Z) (R S : Z),
    requestDecodesTo (createAdmissionRequest pvcKind "oversized") pvc
    /\ storageRequest pvc = Some S
    /\ (0 < Quantity_Cmp S R)%Z
    /\ json_Marshal_patch (correction R)
       = Ok (encodePatch [mkPatch "replace" "/spec/resources/requests/storage" "20Gi"]).
Proof.
  assert (Hpatch :
            Resp.Patch (value (reviewPVC (createAdmissionRequest pvcKind "oversized") client))
            = Some (encodePatch
                      [mkPatch "replace" "/spec/resources/requests/storage" "20Gi"]))
    by reflexivity.
  destruct (reviewPVC_patches_only_oversized_claims
              (createAdmissionRequest pvcKind "oversized") client
              (encodePatch [mkPatch "replace" "/spec/resources/requests/storage" "20Gi"])
              Hpatch)
    as (pvc & name & ns & snapshot & status & R & S
        & Hdec & _ & _ & _ & _ & _ & _ & HS & Hcmp & _ & Hp & _).
  exists pvc, R, S. auto.
Defined.

(** A request with another UID, kind, name and namespace around the same
    raw object, against a client that holds more snapshots: same verdict. *)
Lemma reviewPVC_reads_object_and_referenced_snapshot_only_witness :
  value (reviewPVC (createAdmissionRequest pvcKind "oversized") client)
  = value (reviewPVC
             (Req.mk "another-uid" deploymentKind "another-name" "another-ns"
                (runtime.RawExtension.mk (String.list_byte_of_string "oversized")))
             Faults.crowdedClient).
Proof.
  apply (reviewPVC_reads_object_and_referenced_snapshot_only
           (createAdmissionRequest pvcKind "oversized")
           (Req.mk "another-uid" deploymentKind "another-name" "another-ns"
              (runtime.RawExtension.mk (String.list_byte_of_string "oversized")))
           client Faults.crowdedClient).
  - reflexivity.
  - intros pvc Hdec.
    change (Ok (createPVCFromSnapshot "test-ns" "my-pvc" "my-snapshot" (21 * Gi)) = Ok pvc)
      in Hdec.
    injection Hdec as <-. reflexivity.
Defined.

(** TestOversizedPVCGetsShrunk_DataSourceRef: the snapshot looked up is
    the one the reference variant of the claim names. *)
Lemma reviewPVC_looks_up_only_referenced_snapshots_witness :
  exists pvc : PVC.t Z,
    requestDecodesTo (createAdmissionRequest pvcKind "by-ref") pvc
    /\ exists dsr,
         corev1.PersistentVolumeClaimSpec.DataSourceRef (PVC.Spec pvc) = Some dsr
         /\ corev1.TypedObjectReference.Name dsr = "my-snapshot"
         /\ corev1.TypedObjectReference.Namespace dsr = Some "snapshot-ns".
Proof.
  assert (Hin : In ("snapshot-ns", "my-snapshot")
                  (lookups (events (reviewPVC (createAdmissionRequest pvcKind "by-ref")
                                      client))))
    by (left; reflexivity).
  destruct (reviewPVC_looks_up_only_referenced_snapshots
              (createAdmissionRequest pvcKind "by-ref") client
              "snapshot-ns" "my-snapshot" Hin)
    as (pvc & Hdec & _ & _ & Hsrc).
  exists pvc. split; [exact Hdec|].
  change (Ok (createPVCFromSnapshotRef "pvc-ns" "my-pvc" "snapshot-ns" "my-snapshot" (21 * Gi))
          = Ok pvc) in Hdec.
  injection Hdec as <-.
  destruct Hsrc as [(ds & Hds & _) | (dsr & Hdsr & _ & _ & Hn & [Hns | Hns])].
  - discriminate Hds.
  - discriminate Hns.
  - exists dsr. auto.
Defined.

(** TestHTTPEndpoint: the verdict on the oversized claim comes back under
    the UID of the request, after one lookup. *)
Lemma handleMutate_relays_verdict_witness :
  lookups (events (handleMutate NewRecorder (post "review-oversized") client))
  = lookups (events (reviewPVC (createAdmissionRequest pvcKind "oversized") client))
  /\ (length (lookups (events (handleMutate NewRecorder (post "review-oversized") client)))
      <= 1)%nat.
Proof.
  destruct (handleMutate_relays_verdict NewRecorder (post "review-oversized") client
              (envelope (Some (createAdmissionRequest pvcKind "oversized")))
              (createAdmissionRequest pvcKind "oversized")
              ltac:(accept_fixture "review-oversized") eq_refl)
    as (_ & Hl & Hn & _).
  split; [exact Hl | exact Hn].
Defined.

(** TestHTTPEndpoint: status 200 and a body that carries the UID of the
    request and the patch to "20Gi". *)
Lemma handleMutate_corrects_oversized_claim_witness :
  statusCode (events (handleMutate NewRecorder (post "review-oversized") client)) = 200
  /\ replyBody (events (handleMutate NewRecorder (post "review-oversized") client))
     = String.list_byte_of_string
         ("AdmissionReview uid=test-uid allowed=true patch=["
          +:+ showPatch (mkPatch "replace" "/spec/resources/requests/storage" "20Gi")
          +:+ "]")
  /\ lookups (events (handleMutate NewRecorder (post "review-oversized") client))
     = [("test-ns", "my-snapshot")].
Proof.
  apply (handleMutate_corrects_oversized_claim NewRecorder (post "review-oversized") client
           (envelope (Some (createAdmissionRequest pvcKind "oversized")))
           (createAdmissionRequest pvcKind "oversized")
           (createPVCFromSnapshot "test-ns" "my-pvc" "my-snapshot" (21 * Gi))
           "my-snapshot" "test-ns"
           (createSnapshot "test-ns" "my-snapshot" (20 * Gi))
           (snapshotv1.VolumeSnapshotStatus.mk (Some (20 * Gi)))
           (20 * Gi) (21 * Gi)
           (encodePatch [mkPatch "replace" "/spec/resources/requests/storage" "20Gi"])).
  - accept_fixture "review-oversized".
  - reflexivity.
  - reflexivity.
  - exists triggerLabels. split; reflexivity.
  - reflexivity.
  - discriminate.
  - reflexivity.
  - reflexivity.
  - reflexivity.
  - reflexivity.
  - reflexivity.
  - reflexivity.
  - reflexivity.
  - reflexivity.
Defined.

(** With an encoder that fails, the review of a Deployment gets status 200
    and an empty body. *)
Lemma handleMutate_unserializable_answer_witness :
  statusCode (events (@handleMutate Z Faults.imports NewRecorder
                        (post "review-deployment") client)) = 200
  /\ replyBody (events (@handleMutate Z Faults.imports NewRecorder
                          (post "review-deployment") client)) = [].
Proof.
  destruct (@handleMutate_unserializable_answer Z Faults.imports NewRecorder
              (post "review-deployment") client
              (envelope (Some (createAdmissionRequest deploymentKind "deployment")))
              (createAdmissionRequest deploymentKind "deployment")
              "json: error calling MarshalJSON"
              ltac:(accept_fixture "review-deployment")
              (fun _ => eq_refl))
    as (H1 & H2 & _).
  split; [exact H1 | exact H2].
Defined.

(** The body of TestHTTPEndpoint is read whole. *)
Lemma handleMutate_reads_short_bodies_whole_witness :
  io.ReadAll (io.LimitReader (http.Body (post "review-oversized")) (Z.shiftl 1 20))
  = (String.list_byte_of_string "review-oversized", None).
Proof.
  exact (proj1 (handleMutate_reads_short_bodies_whole NewRecorder (post "review-oversized")
                  client eq_refl eq_refl ltac:(discriminate) eq_refl)).
Defined.


End OnTheFailureFixtures.
